(** * Supply-chain risk scoring, aggregation and recommendations

    A shallow embedding of the risk pipeline of the supply chain predictor:

    - [utils/helpers.py]: [clamp], [safe_division], [classify_risk_priority];
    - [config.py]: [RISK_THRESHOLDS], [RISK_PRIORITY_THRESHOLDS];
    - [models/risk_scorer.py]: [RiskScorer.calculate_composite_score] and the
      six per-domain score methods;
    - [services/risk_analyzer.py]: [RiskAnalyzer.aggregate_risks];
    - [services/forecast_service.py]: [ForecastService.generate_recommendations];
    - [services/mitigation_service.py]:
      [MitigationService._generate_fallback_mitigations].

    Numbers.  Python [int] and [float] values are modelled by exact rationals
    ([Q]); equality of computed numbers is therefore [Qeq] ([==]).  Python's
    [/] raises [ZeroDivisionError] on a zero divisor and subscripting a [dict]
    raises [KeyError] on a missing key: code that can raise lives in the
    [result] monad below. *)

From Stdlib Require Import QArith Qround Lqa ZArith Lia Bool.
From Stdlib Require Import String Ascii List ListSet Permutation Sorted.
From Stdlib Require Import Morphisms Setoid.
Import ListNotations.

Open Scope string_scope.
Open Scope Q_scope.

(** ** Exceptions and the error monad *)

Inductive exn : Type :=
| ZeroDivisionError
| KeyError (key : string).

Inductive result (A : Type) : Type :=
| Ok (a : A)
| Raise (e : exn).

Arguments Ok {A} a.
Arguments Raise {A} e.

Definition bind {A B : Type} (m : result A) (k : A -> result B) : result B :=
  match m with
  | Ok a => k a
  | Raise e => Raise e
  end.

Notation "x <- m ;; k" := (bind m (fun x => k))
  (at level 61, m at next level, right associativity).

(** ** Python numeric primitives on exact rationals *)

Definition Qlt_bool (x y : Q) : bool := negb (Qle_bool y x).

(** [min(a, b)]: the first argument wins ties. *)
Definition py_min (a b : Q) : Q := if Qlt_bool b a then b else a.

(** [max(a, b)]: the first argument wins ties. *)
Definition py_max (a b : Q) : Q := if Qlt_bool a b then b else a.

(** [a / b] *)
Definition py_div (a b : Q) : result Q :=
  if Qeq_bool b 0 then Raise ZeroDivisionError else Ok (a / b).

(** [round(x)] to the nearest integer, ties to the even neighbour. *)
Definition round_half_even (x : Q) : Z :=
  let f := Qfloor x in
  let d := x - inject_Z f in
  if Qlt_bool d (1 # 2) then f
  else if Qlt_bool (1 # 2) d then (f + 1)%Z
  else if Z.even f then f else (f + 1)%Z.

(** [round(x, ndigits)] *)
Definition py_round (x : Q) (ndigits : nat) : Q :=
  let scale := inject_Z (10 ^ Z.of_nat ndigits) in
  inject_Z (round_half_even (x * scale)) / scale.

(** ** utils/helpers.py *)

Definition clamp (value min_val max_val : Q) : Q :=
  py_max min_val (py_min value max_val).

Definition safe_division (numerator denominator default : Q) : result Q :=
  if Qeq_bool denominator 0 then Ok default
  else py_div numerator denominator.

(** ** Dictionaries with string keys, in insertion order *)

Section Dict.
Context {V : Type}.

Fixpoint dict_lookup (d : list (string * V)) (k : string) : option V :=
  match d with
  | [] => None
  | (k', v) :: d' => if String.eqb k' k then Some v else dict_lookup d' k
  end.

(** [d.get(k, default)] *)
Definition dict_get (d : list (string * V)) (k : string) (default : V) : V :=
  match dict_lookup d k with
  | Some v => v
  | None => default
  end.

(** [d[k]] *)
Definition dict_item (d : list (string * V)) (k : string) : result V :=
  match dict_lookup d k with
  | Some v => Ok v
  | None => Raise (KeyError k)
  end.
End Dict.

(** ** config.py *)

Definition RISK_THRESHOLDS : list (string * Q) :=
  [ ("supplier_lead_time_multiplier", 1.2);
    ("capacity_utilization_threshold", 0.95);
    ("downtime_increase_threshold", 0.2);
    ("safety_stock_threshold", 1.0);
    ("demand_volatility_threshold", 0.3);
    ("transit_time_multiplier", 1.3);
    ("weather_severity_threshold", 7);
    ("tariff_increase_threshold", 0.1);
    ("port_congestion_threshold", 30) ].

Definition RISK_PRIORITY_THRESHOLDS : list (string * Q) :=
  [ ("CRITICAL", 90);
    ("HIGH", 70);
    ("MEDIUM", 50);
    ("LOW", 0) ].

(** ** helpers.classify_risk_priority *)

Definition classify_risk_priority (risk_score : Q) : result string :=
  critical <- dict_item RISK_PRIORITY_THRESHOLDS "CRITICAL" ;;
  if Qle_bool critical risk_score then Ok "CRITICAL"
  else
    high <- dict_item RISK_PRIORITY_THRESHOLDS "HIGH" ;;
    if Qle_bool high risk_score then Ok "HIGH"
    else
      medium <- dict_item RISK_PRIORITY_THRESHOLDS "MEDIUM" ;;
      if Qle_bool medium risk_score then Ok "MEDIUM"
      else Ok "LOW".

(** ** RiskScorer.calculate_composite_score *)

Definition raw_score (impact_severity probability urgency : Q) : Q :=
  (impact_severity * 0.4) + (probability * 100 * 0.3) + (urgency * 0.3).

Definition calculate_composite_score
    (impact_severity probability urgency mitigation_readiness : Q) : result Q :=
  let impact_severity := clamp impact_severity 0 100 in
  let probability := clamp probability 0 1 in
  let urgency := clamp urgency 0 100 in
  let mitigation_readiness := clamp mitigation_readiness 0.1 1.0 in
  let raw_score := raw_score impact_severity probability urgency in
  adjusted_score <- py_div raw_score mitigation_readiness ;;
  Ok (clamp adjusted_score 0 100).

(** ** Result dictionaries of the scorer *)

#[warnings="-register-all"]
Inductive pyval : Type :=
| VBool (b : bool)
| VNum (q : Q)
| VStr (s : string)
| VDict (d : list (string * pyval)).

Definition pydict : Type := list (string * pyval).

(** ** models/risk_scorer.py *)

(** A [RiskScorer] object: the attribute set by [__init__] and the method
    that the attribute reference [self.calculate_composite_score] resolves
    to. *)
Record RiskScorer : Type := {
  thresholds : list (string * Q);
  self_calculate_composite_score : Q -> Q -> Q -> Q -> result Q
}.

(** [RiskScorer()] *)
Definition new_RiskScorer : RiskScorer :=
  {| thresholds := RISK_THRESHOLDS;
     self_calculate_composite_score := calculate_composite_score |}.

(** The dictionary literal returned by every score method when its gate is
    closed. *)
Definition no_risk_result : pydict :=
  [ ("risk_detected", VBool false);
    ("risk_score", VNum 0);
    ("priority", VStr "LOW");
    ("probability", VNum 0);
    ("impact_severity", VNum 0) ].

(** [max(100 - timeline_days, 0)] *)
Definition urgency_of (timeline_days : Z) : Q :=
  py_max (inject_Z (100 - timeline_days)) 0.

Definition calculate_supplier_risk_score (self : RiskScorer)
    (forecasted_lead_time historical_avg_lead_time confidence_interval_width : Q)
    (timeline_days : Z) (on_time_delivery_rate : Q) : result pydict :=
  let threshold_multiplier :=
    dict_get (thresholds self) "supplier_lead_time_multiplier" 1.2 in
  increase_ratio <- safe_division forecasted_lead_time historical_avg_lead_time 1.0 ;;
  let risk_detected := Qlt_bool threshold_multiplier increase_ratio in
  if negb risk_detected then Ok no_risk_result
  else
    width_ratio <- py_div confidence_interval_width forecasted_lead_time ;;
    let base_probability := 0.5 + (0.5 * (1 - py_min width_ratio 1)) in
    let probability := base_probability * (1 + (1 - on_time_delivery_rate)) in
    let probability := clamp probability 0 1 in
    let impact_severity := py_min ((increase_ratio - 1) * 100 * 2) 100 in
    let urgency := urgency_of timeline_days in
    let mitigation_readiness := py_max on_time_delivery_rate 0.1 in
    risk_score <- self_calculate_composite_score self
                    impact_severity probability urgency mitigation_readiness ;;
    priority <- classify_risk_priority risk_score ;;
    Ok [ ("risk_detected", VBool true);
         ("risk_score", VNum (py_round risk_score 2));
         ("priority", VStr priority);
         ("probability", VNum (py_round probability 2));
         ("impact_severity", VNum (py_round impact_severity 2));
         ("urgency", VNum (py_round urgency 2));
         ("increase_ratio", VNum (py_round increase_ratio 2));
         ("forecasted_metrics", VDict
            [ ("lead_time_forecast", VNum (py_round forecasted_lead_time 2));
              ("baseline_lead_time", VNum (py_round historical_avg_lead_time 2));
              ("increase_percentage",
                 VNum (py_round ((increase_ratio - 1) * 100) 2)) ]) ].

Definition calculate_production_risk_score (self : RiskScorer)
    (forecasted_utilization forecasted_downtime historical_downtime : Q)
    (timeline_days : Z) : result pydict :=
  let utilization_threshold :=
    dict_get (thresholds self) "capacity_utilization_threshold" 0.95 in
  let downtime_threshold :=
    dict_get (thresholds self) "downtime_increase_threshold" 0.2 in
  let bottleneck_risk := Qlt_bool utilization_threshold forecasted_utilization in
  downtime_increase <- safe_division (forecasted_downtime - historical_downtime)
                         historical_downtime 0 ;;
  let downtime_risk := Qlt_bool downtime_threshold downtime_increase in
  if negb (bottleneck_risk || downtime_risk) then Ok no_risk_result
  else
    let probability := 0.5 in
    probability <-
      (if bottleneck_risk then
         excess <- py_div (0.25 * (forecasted_utilization - utilization_threshold))
                     (1 - utilization_threshold) ;;
         Ok (probability + excess)
       else Ok probability) ;;
    let probability :=
      if downtime_risk
      then probability + 0.25 * py_min (downtime_increase / 0.5) 1
      else probability in
    let probability := clamp probability 0 1 in
    let impact_severity := 0 in
    impact_severity <-
      (if bottleneck_risk then
         excess <- py_div (forecasted_utilization - utilization_threshold)
                     (1 - utilization_threshold) ;;
         Ok (impact_severity + 50 * excess)
       else Ok impact_severity) ;;
    let impact_severity :=
      if downtime_risk
      then impact_severity + 50 * py_min downtime_increase 1
      else impact_severity in
    let impact_severity := clamp impact_severity 0 100 in
    let urgency := urgency_of timeline_days in
    risk_score <- self_calculate_composite_score self
                    impact_severity probability urgency 0.7 ;;
    priority <- classify_risk_priority risk_score ;;
    Ok [ ("risk_detected", VBool true);
         ("risk_score", VNum (py_round risk_score 2));
         ("priority", VStr priority);
         ("probability", VNum (py_round probability 2));
         ("impact_severity", VNum (py_round impact_severity 2));
         ("urgency", VNum (py_round urgency 2));
         ("bottleneck_risk", VBool bottleneck_risk);
         ("downtime_risk", VBool downtime_risk);
         ("forecasted_metrics", VDict
            [ ("capacity_utilization", VNum (py_round forecasted_utilization 4));
              ("downtime_hours", VNum (py_round forecasted_downtime 2));
              ("downtime_increase_pct",
                 VNum (py_round (downtime_increase * 100) 2)) ]) ].

Definition calculate_inventory_risk_score (self : RiskScorer)
    (forecasted_inventory safety_stock forecasted_demand_upper
     inventory_lower_bound : Q) (timeline_days : Z) : result pydict :=
  let shortage_risk := Qlt_bool forecasted_inventory safety_stock in
  let high_demand_risk := Qlt_bool inventory_lower_bound forecasted_demand_upper in
  if negb (shortage_risk || high_demand_risk) then Ok no_risk_result
  else
    let probability := 0.3 in
    probability <-
      (if shortage_risk then
         shortage_severity <-
           safe_division (safety_stock - forecasted_inventory) safety_stock 0 ;;
         Ok (probability + 0.4 * py_min shortage_severity 1)
       else Ok probability) ;;
    probability <-
      (if high_demand_risk then
         demand_gap <-
           safe_division (forecasted_demand_upper - inventory_lower_bound)
             inventory_lower_bound 0 ;;
         Ok (probability + 0.3 * py_min demand_gap 1)
       else Ok probability) ;;
    let probability := clamp probability 0 1 in
    let impact_severity := 0 in
    impact_severity <-
      (if shortage_risk then
         shortage_pct <-
           safe_division (safety_stock - forecasted_inventory) safety_stock 0 ;;
         Ok (impact_severity + 60 * py_min shortage_pct 1)
       else Ok impact_severity) ;;
    let impact_severity :=
      if high_demand_risk then impact_severity + 40 else impact_severity in
    let impact_severity := clamp impact_severity 0 100 in
    let urgency := urgency_of timeline_days in
    risk_score <- self_calculate_composite_score self
                    impact_severity probability urgency 0.6 ;;
    priority <- classify_risk_priority risk_score ;;
    Ok [ ("risk_detected", VBool true);
         ("risk_score", VNum (py_round risk_score 2));
         ("priority", VStr priority);
         ("probability", VNum (py_round probability 2));
         ("impact_severity", VNum (py_round impact_severity 2));
         ("urgency", VNum (py_round urgency 2));
         ("shortage_risk", VBool shortage_risk);
         ("demand_exceeds_supply", VBool high_demand_risk);
         ("forecasted_metrics", VDict
            [ ("forecasted_inventory", VNum (py_round forecasted_inventory 2));
              ("safety_stock", VNum (py_round safety_stock 2));
              ("inventory_gap",
                 VNum (py_round (safety_stock - forecasted_inventory) 2)) ]) ].

Definition calculate_demand_volatility_score (self : RiskScorer)
    (yhat yhat_upper yhat_lower : Q) (timeline_days : Z) : result pydict :=
  let threshold := dict_get (thresholds self) "demand_volatility_threshold" 0.3 in
  let interval_width := yhat_upper - yhat_lower in
  volatility <- safe_division interval_width yhat 0 ;;
  let risk_detected := Qlt_bool threshold volatility in
  if negb risk_detected then Ok no_risk_result
  else
    excess <- py_div (volatility - threshold) threshold ;;
    let probability := py_min (excess + 0.5) 1 in
    let impact_severity := py_min (volatility * 100) 100 in
    let urgency := urgency_of timeline_days in
    risk_score <- self_calculate_composite_score self
                    impact_severity probability urgency 0.8 ;;
    priority <- classify_risk_priority risk_score ;;
    Ok [ ("risk_detected", VBool true);
         ("risk_score", VNum (py_round risk_score 2));
         ("priority", VStr priority);
         ("probability", VNum (py_round probability 2));
         ("impact_severity", VNum (py_round impact_severity 2));
         ("urgency", VNum (py_round urgency 2));
         ("volatility", VNum (py_round (volatility * 100) 2));
         ("forecasted_metrics", VDict
            [ ("demand_forecast", VNum (py_round yhat 2));
              ("upper_bound", VNum (py_round yhat_upper 2));
              ("lower_bound", VNum (py_round yhat_lower 2));
              ("volatility_percentage",
                 VNum (py_round (volatility * 100) 2)) ]) ].

Definition calculate_transportation_risk_score (self : RiskScorer)
    (forecasted_transit_time baseline_transit_time : Q)
    (timeline_days : Z) (on_time_rate : Q) : result pydict :=
  let threshold := dict_get (thresholds self) "transit_time_multiplier" 1.3 in
  increase_ratio <- safe_division forecasted_transit_time baseline_transit_time 1.0 ;;
  let risk_detected := Qlt_bool threshold increase_ratio in
  if negb risk_detected then Ok no_risk_result
  else
    let probability := 0.5 + 0.5 * (1 - on_time_rate) in
    let probability := clamp probability 0 1 in
    let delay_pct := (increase_ratio - 1) * 100 in
    let impact_severity := py_min (delay_pct * 2) 100 in
    let urgency := urgency_of timeline_days in
    risk_score <- self_calculate_composite_score self
                    impact_severity probability urgency on_time_rate ;;
    priority <- classify_risk_priority risk_score ;;
    Ok [ ("risk_detected", VBool true);
         ("risk_score", VNum (py_round risk_score 2));
         ("priority", VStr priority);
         ("probability", VNum (py_round probability 2));
         ("impact_severity", VNum (py_round impact_severity 2));
         ("urgency", VNum (py_round urgency 2));
         ("forecasted_metrics", VDict
            [ ("transit_time_forecast", VNum (py_round forecasted_transit_time 2));
              ("baseline_transit_time", VNum (py_round baseline_transit_time 2));
              ("delay_percentage",
                 VNum (py_round ((increase_ratio - 1) * 100) 2)) ]) ].

(** The locals [risk_detected], [probability], [impact_severity] and
    [sub_category] of the external-factor method, as left by one branch of
    its [if]/[elif] chain. *)
Record factor_locals : Type := {
  fl_risk_detected : bool;
  fl_probability : Q;
  fl_impact_severity : Q;
  fl_sub_category : string
}.

Definition external_factor_branches (self : RiskScorer) (factor_type : string)
    (forecasted_value historical_value : Q) : result factor_locals :=
  (* the initial assignments before the chain *)
  let init := {| fl_risk_detected := false; fl_probability := 0;
                 fl_impact_severity := 0; fl_sub_category := factor_type |} in
  if String.eqb factor_type "weather_severity_index" then
    let threshold := dict_get (thresholds self) "weather_severity_threshold" 7 in
    let risk_detected := Qlt_bool threshold forecasted_value in
    if risk_detected then
      Ok {| fl_risk_detected := risk_detected;
            fl_probability := py_min ((forecasted_value - threshold) / 3) 1;
            fl_impact_severity := py_min ((forecasted_value / 10) * 100) 100;
            fl_sub_category := "Weather" |}
    else Ok init
  else if String.eqb factor_type "tariff_rate" then
    let threshold := dict_get (thresholds self) "tariff_increase_threshold" 0.1 in
    increase <- safe_division (forecasted_value - historical_value)
                  historical_value 0 ;;
    let risk_detected := Qlt_bool threshold increase in
    if risk_detected then
      Ok {| fl_risk_detected := risk_detected;
            fl_probability := py_min (increase / 0.3) 1;
            fl_impact_severity := py_min (increase * 200) 100;
            fl_sub_category := "Trade/Tariffs" |}
    else Ok init
  else if String.eqb factor_type "port_congestion_index" then
    let threshold := dict_get (thresholds self) "port_congestion_threshold" 30 in
    let risk_detected := Qlt_bool threshold forecasted_value in
    if risk_detected then
      Ok {| fl_risk_detected := risk_detected;
            fl_probability := py_min ((forecasted_value - threshold) / 20) 1;
            fl_impact_severity := py_min ((forecasted_value / 50) * 100) 100;
            fl_sub_category := "Port Congestion" |}
    else Ok init
  else if String.eqb factor_type "fuel_price_usd" then
    increase <- safe_division (forecasted_value - historical_value)
                  historical_value 0 ;;
    let risk_detected := Qlt_bool 0.15 increase in
    if risk_detected then
      Ok {| fl_risk_detected := risk_detected;
            fl_probability := py_min (increase / 0.3) 1;
            fl_impact_severity := py_min (increase * 150) 100;
            fl_sub_category := "Fuel Costs" |}
    else Ok init
  else if String.eqb factor_type "geopolitical_risk_index" then
    let risk_detected := Qlt_bool 7 forecasted_value in
    if risk_detected then
      Ok {| fl_risk_detected := risk_detected;
            fl_probability := py_min (forecasted_value / 10) 1;
            fl_impact_severity := py_min (forecasted_value * 10) 100;
            fl_sub_category := "Geopolitical" |}
    else Ok init
  else Ok init.

Definition calculate_external_factor_risk_score (self : RiskScorer)
    (factor_type : string) (forecasted_value historical_value : Q)
    (timeline_days : Z) : result pydict :=
  locals <- external_factor_branches self factor_type
              forecasted_value historical_value ;;
  if negb (fl_risk_detected locals) then Ok no_risk_result
  else
    let probability := clamp (fl_probability locals) 0 1 in
    let impact_severity := clamp (fl_impact_severity locals) 0 100 in
    let urgency := urgency_of timeline_days in
    risk_score <- self_calculate_composite_score self
                    impact_severity probability urgency 0.5 ;;
    priority <- classify_risk_priority risk_score ;;
    Ok [ ("risk_detected", VBool true);
         ("risk_score", VNum (py_round risk_score 2));
         ("priority", VStr priority);
         ("probability", VNum (py_round probability 2));
         ("impact_severity", VNum (py_round impact_severity 2));
         ("urgency", VNum (py_round urgency 2));
         ("sub_category", VStr (fl_sub_category locals));
         ("forecasted_metrics", VDict
            [ ("forecasted_value", VNum (py_round forecasted_value 2));
              ("historical_value", VNum (py_round historical_value 2));
              ("factor_type", VStr factor_type) ]) ].

(** One call of one of the six domain score methods, with its arguments. *)
Inductive domain_call : Type :=
| SupplierCall (forecasted_lead_time historical_avg_lead_time
                confidence_interval_width : Q) (timeline_days : Z)
               (on_time_delivery_rate : Q)
| ProductionCall (forecasted_utilization forecasted_downtime
                  historical_downtime : Q) (timeline_days : Z)
| InventoryCall (forecasted_inventory safety_stock forecasted_demand_upper
                 inventory_lower_bound : Q) (timeline_days : Z)
| DemandCall (yhat yhat_upper yhat_lower : Q) (timeline_days : Z)
| TransportationCall (forecasted_transit_time baseline_transit_time : Q)
                     (timeline_days : Z) (on_time_rate : Q)
| ExternalCall (factor_type : string) (forecasted_value historical_value : Q)
               (timeline_days : Z).

Definition domain_score (self : RiskScorer) (c : domain_call) : result pydict :=
  match c with
  | SupplierCall f h w t r => calculate_supplier_risk_score self f h w t r
  | ProductionCall u d h t => calculate_production_risk_score self u d h t
  | InventoryCall i s d l t => calculate_inventory_risk_score self i s d l t
  | DemandCall y u l t => calculate_demand_volatility_score self y u l t
  | TransportationCall f b t r => calculate_transportation_risk_score self f b t r
  | ExternalCall ft f h t => calculate_external_factor_risk_score self ft f h t
  end.

(** A scorer whose composite-score method raises on every call: any score
    method that returns normally on it did not call the composite score. *)
Definition composite_trap : RiskScorer :=
  {| thresholds := RISK_THRESHOLDS;
     self_calculate_composite_score := fun _ _ _ _ => Raise (KeyError "composite") |}.

(** The three numeric fields of a result dictionary lie in their ranges. *)
Definition scores_in_range (r : pydict) : Prop :=
  exists s p i,
    dict_lookup r "risk_score" = Some (VNum s) /\ 0 <= s <= 100 /\
    dict_lookup r "probability" = Some (VNum p) /\ 0 <= p <= 1 /\
    dict_lookup r "impact_severity" = Some (VNum i) /\ 0 <= i <= 100.

(** The five factor types tested by the [if]/[elif] chain of the
    external-factor method. *)
Definition recognized_factor_types : list string :=
  [ "weather_severity_index"; "tariff_rate"; "port_congestion_index";
    "fuel_price_usd"; "geopolitical_risk_index" ].

(** The order of the four priority labels, LOW < MEDIUM < HIGH < CRITICAL. *)
Definition priority_rank (p : string) : nat :=
  if String.eqb p "CRITICAL" then 3
  else if String.eqb p "HIGH" then 2
  else if String.eqb p "MEDIUM" then 1
  else 0%nat.

(** ** schemas/models.py: the risk records handed between the services

    The services pass risks as dictionaries shaped like [RiskItem] and read
    them with [risk.get(key, default)]: a key read that way is an optional
    field, [None] standing for a missing key. *)

Definition get_or {A : Type} (field : option A) (default : A) : A :=
  match field with
  | Some v => v
  | None => default
  end.

Module AffectedEntities.
Record t : Type := {
  suppliers : list string;
  plants : list string;
  warehouses : list string;
  skus : list string;
  routes : list string;
  regions : list string
}.
End AffectedEntities.

Module ForecastedMetrics.
Record t : Type := {
  metric_name : string;
  forecasted_value : Q;
  baseline_value : Q;
  change_percentage : Q
}.
End ForecastedMetrics.

Module MitigationStrategy.
Record t : Type := {
  strategy_name : string;
  action_steps : list string;
  timeline_days : Z;
  estimated_cost : Q;
  risk_reduction : Q;
  dependencies : list string;
  pros : list string;
  cons : list string
}.
End MitigationStrategy.

Module RiskItem.
Record t : Type := {
  risk_id : option string;
  category : option string;
  sub_categories : list string;
  impact : option string;
  severity : string;
  probability : Q;
  risk_score : option Q;
  priority : option string;
  timeline_days : option Z;
  affected_entities : AffectedEntities.t;
  forecasted_metrics : list ForecastedMetrics.t;
  root_causes : list string;
  mitigations : list MitigationStrategy.t
}.
End RiskItem.

(** ** services/risk_analyzer.py: RiskAnalyzer.aggregate_risks *)

(** [list.sort(key=key, reverse=True)]: a stable sort into non-increasing
    key order.  [insert_desc] puts [x] in front of the first element whose
    key does not exceed the key of [x], so elements with equal keys stay in
    their order of arrival. *)
Section SortReverse.
Context {A : Type} (key : A -> Q).

Fixpoint insert_desc (x : A) (l : list A) : list A :=
  match l with
  | [] => [x]
  | y :: l' =>
      if Qlt_bool (key x) (key y) then y :: insert_desc x l'
      else x :: y :: l'
  end.

Definition sort_reverse (l : list A) : list A :=
  fold_right insert_desc [] l.
End SortReverse.

(** [x.get("risk_score", 0)] *)
Definition score_key (x : RiskItem.t) : Q := get_or (RiskItem.risk_score x) 0.

Definition aggregate_risks (all_risks : list RiskItem.t) (risk_threshold : Q)
  : list RiskItem.t :=
  let filtered :=
    filter (fun r => Qle_bool risk_threshold (get_or (RiskItem.risk_score r) 0))
      all_risks in
  sort_reverse score_key filtered.

(** ** services/forecast_service.py: ForecastService.generate_recommendations *)

Module ActionRecommendation.
Record t : Type := {
  action : string;
  priority : string;
  related_risks : list (option string)
}.
End ActionRecommendation.

Module Recommendations.
Record t : Type := {
  immediate_actions : list ActionRecommendation.t;
  short_term_actions : list ActionRecommendation.t;
  long_term_actions : list ActionRecommendation.t
}.
End Recommendations.

(** The body of the [for risk in risks] loop: one [append] to one of the
    three lists. *)
Definition recommend_risk (recommendations : Recommendations.t)
    (risk : RiskItem.t) : Recommendations.t :=
  let risk_id := RiskItem.risk_id risk in
  let priority := get_or (RiskItem.priority risk) "MEDIUM" in
  let timeline := get_or (RiskItem.timeline_days risk) 30%Z in
  let category := get_or (RiskItem.category risk) "" in
  if String.eqb priority "CRITICAL" || (timeline <=? 7)%Z then
    {| Recommendations.immediate_actions :=
         Recommendations.immediate_actions recommendations ++
         [ {| ActionRecommendation.action :=
                "Address " ++ category ++ ": " ++
                get_or (RiskItem.impact risk) "Risk identified";
              ActionRecommendation.priority := priority;
              ActionRecommendation.related_risks := [risk_id] |} ];
       Recommendations.short_term_actions :=
         Recommendations.short_term_actions recommendations;
       Recommendations.long_term_actions :=
         Recommendations.long_term_actions recommendations |}
  else if String.eqb priority "HIGH" || (timeline <=? 21)%Z then
    {| Recommendations.immediate_actions :=
         Recommendations.immediate_actions recommendations;
       Recommendations.short_term_actions :=
         Recommendations.short_term_actions recommendations ++
         [ {| ActionRecommendation.action := "Monitor and plan for " ++ category;
              ActionRecommendation.priority := priority;
              ActionRecommendation.related_risks := [risk_id] |} ];
       Recommendations.long_term_actions :=
         Recommendations.long_term_actions recommendations |}
  else
    {| Recommendations.immediate_actions :=
         Recommendations.immediate_actions recommendations;
       Recommendations.short_term_actions :=
         Recommendations.short_term_actions recommendations;
       Recommendations.long_term_actions :=
         Recommendations.long_term_actions recommendations ++
         [ {| ActionRecommendation.action := "Prepare contingency for " ++ category;
              ActionRecommendation.priority := priority;
              ActionRecommendation.related_risks := [risk_id] |} ] |}.

(** The three lists when the loop has run, before they are cut. *)
Definition collect_recommendations (risks : list RiskItem.t) : Recommendations.t :=
  fold_left recommend_risk risks
    {| Recommendations.immediate_actions := [];
       Recommendations.short_term_actions := [];
       Recommendations.long_term_actions := [] |}.

Definition generate_recommendations (risks : list RiskItem.t) : Recommendations.t :=
  let recommendations := collect_recommendations risks in
  {| Recommendations.immediate_actions :=
       firstn 5 (Recommendations.immediate_actions recommendations);
     Recommendations.short_term_actions :=
       firstn 5 (Recommendations.short_term_actions recommendations);
     Recommendations.long_term_actions :=
       firstn 5 (Recommendations.long_term_actions recommendations) |}.

(** The bucketing rule in the words of the specification: immediate when
    the priority is CRITICAL or the timeline is at most 7 days, otherwise
    short term when the priority is HIGH or the timeline is at most 21
    days, otherwise long term. *)
Inductive bucket : Type := Immediate | ShortTerm | LongTerm.

Definition spec_bucket (priority : string) (timeline_days : Z) : bucket :=
  if String.eqb priority "CRITICAL" then Immediate
  else if (timeline_days <=? 7)%Z then Immediate
  else if String.eqb priority "HIGH" then ShortTerm
  else if (timeline_days <=? 21)%Z then ShortTerm
  else LongTerm.

Definition bucket_eqb (a b : bucket) : bool :=
  match a, b with
  | Immediate, Immediate | ShortTerm, ShortTerm | LongTerm, LongTerm => true
  | _, _ => false
  end.

Definition risk_bucket (risk : RiskItem.t) : bucket :=
  spec_bucket (get_or (RiskItem.priority risk) "MEDIUM")
              (get_or (RiskItem.timeline_days risk) 30%Z).

(** The one recommendation record of a risk. *)
Definition spec_recommendation (risk : RiskItem.t) : ActionRecommendation.t :=
  let category := get_or (RiskItem.category risk) "" in
  {| ActionRecommendation.action :=
       match risk_bucket risk with
       | Immediate =>
           "Address " ++ category ++ ": " ++
           get_or (RiskItem.impact risk) "Risk identified"
       | ShortTerm => "Monitor and plan for " ++ category
       | LongTerm => "Prepare contingency for " ++ category
       end;
     ActionRecommendation.priority := get_or (RiskItem.priority risk) "MEDIUM";
     ActionRecommendation.related_risks := [RiskItem.risk_id risk] |}.

Definition spec_bucket_records (b : bucket) (risks : list RiskItem.t)
  : list ActionRecommendation.t :=
  map spec_recommendation
    (filter (fun risk => bucket_eqb (risk_bucket risk) b) risks).

(** ** services/mitigation_service.py: the fallback rule table *)

(** [needle in hay] on strings *)
Fixpoint contains (needle hay : string) : bool :=
  if String.prefix needle hay then true
  else match hay with
       | EmptyString => false
       | String _ hay' => contains needle hay'
       end.

Definition priority_cost_multiplier (priority : string) : Q :=
  dict_get [ ("CRITICAL", 2.0); ("HIGH", 1.5); ("MEDIUM", 1.0); ("LOW", 0.5) ]
    priority 1.0.

Definition _generate_fallback_mitigations (risk : RiskItem.t)
  : list MitigationStrategy.t :=
  let category := get_or (RiskItem.category risk) "" in
  let priority := get_or (RiskItem.priority risk) "MEDIUM" in
  let cost_multiplier := priority_cost_multiplier priority in
  if contains "Supplier" category then
    [
      {| MitigationStrategy.strategy_name := "Activate Backup Supplier";
         MitigationStrategy.action_steps :=
           [ "Identify and contact qualified backup suppliers";
             "Request expedited quotes and capacity confirmation";
             "Negotiate emergency supply agreements";
             "Place initial trial orders to verify quality";
             "Establish regular communication channels" ];
         MitigationStrategy.timeline_days := 5;
         MitigationStrategy.estimated_cost := 45000 * cost_multiplier;
         MitigationStrategy.risk_reduction := 60;
         MitigationStrategy.dependencies :=
           [ "Pre-qualified supplier list";
             "Budget approval" ];
         MitigationStrategy.pros :=
           [ "Immediate capacity increase";
             "Supply diversification" ];
         MitigationStrategy.cons :=
           [ "Higher unit costs";
             "Quality verification needed" ] |};
      {| MitigationStrategy.strategy_name := "Build Safety Stock Buffer";
         MitigationStrategy.action_steps :=
           [ "Calculate optimal safety stock levels";
             "Place expedited orders with current supplier";
             "Arrange additional warehouse capacity";
             "Implement inventory monitoring system" ];
         MitigationStrategy.timeline_days := 14;
         MitigationStrategy.estimated_cost := 75000 * cost_multiplier;
         MitigationStrategy.risk_reduction := 40;
         MitigationStrategy.dependencies :=
           [ "Warehouse capacity";
             "Working capital" ];
         MitigationStrategy.pros :=
           [ "Buffers against future delays";
             "No supplier change" ];
         MitigationStrategy.cons :=
           [ "Increased inventory costs";
             "Capital tied up" ] |};
      {| MitigationStrategy.strategy_name := "Negotiate Priority Allocation";
         MitigationStrategy.action_steps :=
           [ "Schedule meeting with supplier management";
             "Present volume commitment projections";
             "Negotiate priority production slots";
             "Document agreements in contract amendment" ];
         MitigationStrategy.timeline_days := 7;
         MitigationStrategy.estimated_cost := 15000 * cost_multiplier;
         MitigationStrategy.risk_reduction := 30;
         MitigationStrategy.dependencies :=
           [ "Supplier relationship";
             "Volume commitment" ];
         MitigationStrategy.pros :=
           [ "Maintains partnership";
             "Lower cost option" ];
         MitigationStrategy.cons :=
           [ "Dependent on supplier";
             "May not guarantee delivery" ] |} ]
  else if contains "Production" category then
    [
      {| MitigationStrategy.strategy_name := "Implement Overtime Production";
         MitigationStrategy.action_steps :=
           [ "Assess equipment capacity for extended runs";
             "Schedule additional shifts";
             "Coordinate with workforce management";
             "Monitor equipment stress levels" ];
         MitigationStrategy.timeline_days := 3;
         MitigationStrategy.estimated_cost := 35000 * cost_multiplier;
         MitigationStrategy.risk_reduction := 45;
         MitigationStrategy.dependencies :=
           [ "Labor availability";
             "Equipment condition" ];
         MitigationStrategy.pros :=
           [ "Quick implementation";
             "Uses existing assets" ];
         MitigationStrategy.cons :=
           [ "Higher labor costs";
             "Worker fatigue risk" ] |};
      {| MitigationStrategy.strategy_name := "Outsource to Contract Manufacturer";
         MitigationStrategy.action_steps :=
           [ "Identify qualified contract manufacturers";
             "Share product specifications";
             "Conduct quality audits";
             "Transfer production batch" ];
         MitigationStrategy.timeline_days := 21;
         MitigationStrategy.estimated_cost := 120000 * cost_multiplier;
         MitigationStrategy.risk_reduction := 55;
         MitigationStrategy.dependencies :=
           [ "CM availability";
             "Quality certification" ];
         MitigationStrategy.pros :=
           [ "Adds capacity";
             "Maintains delivery" ];
         MitigationStrategy.cons :=
           [ "Higher costs";
             "Quality control challenges" ] |} ]
  else if contains "Stock" category || contains "Inventory" category then
    [
      {| MitigationStrategy.strategy_name := "Expedite Inbound Shipments";
         MitigationStrategy.action_steps :=
           [ "Identify in-transit inventory";
             "Upgrade to air freight where possible";
             "Coordinate with carriers for priority handling";
             "Track shipments in real-time" ];
         MitigationStrategy.timeline_days := 2;
         MitigationStrategy.estimated_cost := 25000 * cost_multiplier;
         MitigationStrategy.risk_reduction := 35;
         MitigationStrategy.dependencies :=
           [ "Carrier capacity";
             "Budget approval" ];
         MitigationStrategy.pros :=
           [ "Fast impact";
             "Immediate stock boost" ];
         MitigationStrategy.cons :=
           [ "High shipping costs";
             "Limited volume" ] |};
      {| MitigationStrategy.strategy_name := "Implement Demand Prioritization";
         MitigationStrategy.action_steps :=
           [ "Segment customers by priority/value";
             "Allocate available inventory to key accounts";
             "Communicate proactively with affected customers";
             "Offer alternatives or future delivery dates" ];
         MitigationStrategy.timeline_days := 1;
         MitigationStrategy.estimated_cost := 5000 * cost_multiplier;
         MitigationStrategy.risk_reduction := 25;
         MitigationStrategy.dependencies :=
           [ "Customer segmentation data" ];
         MitigationStrategy.pros :=
           [ "Protects key relationships";
             "Low cost" ];
         MitigationStrategy.cons :=
           [ "Some customers impacted";
             "Revenue deferral" ] |} ]
  else if contains "Transportation" category then
    [
      {| MitigationStrategy.strategy_name := "Use Alternative Carriers";
         MitigationStrategy.action_steps :=
           [ "Contact backup carrier network";
             "Negotiate spot rates";
             "Reroute affected shipments";
             "Monitor delivery performance" ];
         MitigationStrategy.timeline_days := 2;
         MitigationStrategy.estimated_cost := 20000 * cost_multiplier;
         MitigationStrategy.risk_reduction := 50;
         MitigationStrategy.dependencies :=
           [ "Carrier availability" ];
         MitigationStrategy.pros :=
           [ "Maintains delivery schedule";
             "Flexible" ];
         MitigationStrategy.cons :=
           [ "Premium rates";
             "Coordination overhead" ] |};
      {| MitigationStrategy.strategy_name := "Switch Transportation Mode";
         MitigationStrategy.action_steps :=
           [ "Evaluate air vs. ground vs. rail options";
             "Calculate cost-benefit of mode switch";
             "Book alternative transport";
             "Update tracking systems" ];
         MitigationStrategy.timeline_days := 3;
         MitigationStrategy.estimated_cost := 40000 * cost_multiplier;
         MitigationStrategy.risk_reduction := 45;
         MitigationStrategy.dependencies :=
           [ "Mode availability";
             "Cost approval" ];
         MitigationStrategy.pros :=
           [ "Can significantly speed delivery" ];
         MitigationStrategy.cons :=
           [ "Higher costs";
             "May not suit all products" ] |} ]
  else
    [
      {| MitigationStrategy.strategy_name := "Activate Contingency Plan";
         MitigationStrategy.action_steps :=
           [ "Review existing contingency procedures";
             "Brief relevant teams";
             "Implement pre-planned mitigation steps";
             "Monitor situation closely" ];
         MitigationStrategy.timeline_days := 1;
         MitigationStrategy.estimated_cost := 10000 * cost_multiplier;
         MitigationStrategy.risk_reduction := 30;
         MitigationStrategy.dependencies :=
           [ "Documented contingency plan" ];
         MitigationStrategy.pros :=
           [ "Rapid response";
             "Pre-approved actions" ];
         MitigationStrategy.cons :=
           [ "May not cover all scenarios" ] |};
      {| MitigationStrategy.strategy_name := "Increase Monitoring and Communication";
         MitigationStrategy.action_steps :=
           [ "Set up enhanced monitoring for affected areas";
             "Establish daily status calls with stakeholders";
             "Create situation dashboard";
             "Prepare communication templates" ];
         MitigationStrategy.timeline_days := 1;
         MitigationStrategy.estimated_cost := 5000 * cost_multiplier;
         MitigationStrategy.risk_reduction := 20;
         MitigationStrategy.dependencies :=
           [ "Communication tools" ];
         MitigationStrategy.pros :=
           [ "Early warning of changes";
             "Stakeholder alignment" ];
         MitigationStrategy.cons :=
           [ "Reactive approach";
             "Time investment" ] |};
      {| MitigationStrategy.strategy_name := "Hedge Risk Exposure";
         MitigationStrategy.action_steps :=
           [ "Analyze exposure to specific risk factor";
             "Explore financial hedging options";
             "Implement contractual protections";
             "Diversify where possible" ];
         MitigationStrategy.timeline_days := 14;
         MitigationStrategy.estimated_cost := 30000 * cost_multiplier;
         MitigationStrategy.risk_reduction := 35;
         MitigationStrategy.dependencies :=
           [ "Financial team involvement";
             "Market instruments" ];
         MitigationStrategy.pros :=
           [ "Reduces financial impact";
             "Long-term protection" ];
         MitigationStrategy.cons :=
           [ "Complexity";
             "Upfront costs" ] |} ].

(** The unscaled cost column of the rule table, bucket by bucket. *)
Definition spec_base_costs (category : string) : list Q :=
  if contains "Supplier" category then [45000; 75000; 15000]
  else if contains "Production" category then [35000; 120000]
  else if contains "Stock" category || contains "Inventory" category
  then [25000; 5000]
  else if contains "Transportation" category then [20000; 40000]
  else [10000; 5000; 30000].

(** A risk as the analyzers build it, for examples: every key present. *)
Definition example_risk (id category priority : string) (score : Q)
    (timeline : Z) : RiskItem.t :=
  {| RiskItem.risk_id := Some id;
     RiskItem.category := Some category;
     RiskItem.sub_categories := [];
     RiskItem.impact := Some "Production Delays";
     RiskItem.severity := priority;
     RiskItem.probability := 0.5;
     RiskItem.risk_score := Some score;
     RiskItem.priority := Some priority;
     RiskItem.timeline_days := Some timeline;
     RiskItem.affected_entities :=
       {| AffectedEntities.suppliers := []; AffectedEntities.plants := [];
          AffectedEntities.warehouses := []; AffectedEntities.skus := [];
          AffectedEntities.routes := []; AffectedEntities.regions := [] |};
     RiskItem.forecasted_metrics := [];
     RiskItem.root_causes := [];
     RiskItem.mitigations := [] |}.

(** ** services/risk_analyzer.py: RiskAnalyzer.generate_summary *)

Module AnalysisSummary.
Record t : Type := {
  total_risks : nat;
  critical_risks : nat;
  high_risks : nat;
  medium_risks : nat;
  low_risks : nat;
  total_entities_affected : nat
}.
End AnalysisSummary.

(** [r.get("priority") == label] *)
Definition priority_is (label : string) (r : RiskItem.t) : bool :=
  match RiskItem.priority r with
  | Some p => String.eqb p label
  | None => false
  end.

(** [sum(1 for r in risks if r.get("priority") == label)] *)
Definition count_priority (label : string) (risks : list RiskItem.t) : nat :=
  length (filter (priority_is label) risks).

(** [entities.items()]: the six lists of a risk's [affected_entities], in
    the key order of the dictionary literals of the analyzers.  The records
    carry the key always, so the default of
    [risk.get("affected_entities", {})] is never taken. *)
Definition entity_lists (risk : RiskItem.t) : list (list string) :=
  let entities := RiskItem.affected_entities risk in
  [ AffectedEntities.suppliers entities;
    AffectedEntities.plants entities;
    AffectedEntities.warehouses entities;
    AffectedEntities.skus entities;
    AffectedEntities.routes entities;
    AffectedEntities.regions entities ].

(** [s.update(entity_list)] on a set of strings, kept as a duplicate-free
    list. *)
Definition set_update (s : list string) (entity_list : list string)
  : list string :=
  fold_left (fun acc x => set_add string_dec x acc) entity_list s.

(** The set [all_entities] when the two nested loops have run. *)
Definition collect_entities (risks : list RiskItem.t) : list string :=
  fold_left (fun all_entities risk =>
               fold_left set_update (entity_lists risk) all_entities)
    risks [].

Definition generate_summary (risks : list RiskItem.t) : AnalysisSummary.t :=
  {| AnalysisSummary.total_risks := length risks;
     AnalysisSummary.critical_risks := count_priority "CRITICAL" risks;
     AnalysisSummary.high_risks := count_priority "HIGH" risks;
     AnalysisSummary.medium_risks := count_priority "MEDIUM" risks;
     AnalysisSummary.low_risks := count_priority "LOW" risks;
     AnalysisSummary.total_entities_affected := length (collect_entities risks) |}.

(** Every identifier a list of risks names, slot by slot, with repetitions. *)
Definition listed_entities (risks : list RiskItem.t) : list string :=
  concat (map (fun risk => concat (entity_lists risk)) risks).

(** The priority of the risk is one of the four labels. *)
Definition labelled (r : RiskItem.t) : bool :=
  priority_is "CRITICAL" r || priority_is "HIGH" r ||
  priority_is "MEDIUM" r || priority_is "LOW" r.

(** ** services/mitigation_service.py: MitigationService._validate_strategies

    The strategies to validate come out of [json.loads].  A field read with
    [strategy.get(key, default)] is optional.  A text field holds a string
    and a list field a list of strings, on which [str] is the identity; a
    numeric field holds either a JSON number or a value on which the
    conversion ([int], [float]) raises [ValueError] or [TypeError]. *)

Inductive raw_number : Type :=
| RawNumber (q : Q)
| RawNotNumber.

Module RawStrategy.
Record t : Type := {
  strategy_name : option string;
  action_steps : option (list string);
  timeline_days : option raw_number;
  estimated_cost : option raw_number;
  risk_reduction : option raw_number;
  dependencies : option (list string);
  pros : option (list string);
  cons : option (list string)
}.
End RawStrategy.

(** [int(v)]: truncation towards zero; [None] when it raises. *)
Definition py_int (v : raw_number) : option Z :=
  match v with
  | RawNumber q => Some (Z.quot (Qnum q) (Z.pos (Qden q)))
  | RawNotNumber => None
  end.

(** [float(v)]; [None] when it raises. *)
Definition py_float (v : raw_number) : option Q :=
  match v with
  | RawNumber q => Some q
  | RawNotNumber => None
  end.

(** [s[:n]] on a string *)
Definition str_prefix (n : nat) (s : string) : string := substring 0 n s.

(** The dictionary [clean_strategy] of one raw strategy; [None] when one of
    the conversions raises, which the loop answers with [continue]. *)
Definition clean_strategy (strategy : RawStrategy.t)
  : option MitigationStrategy.t :=
  match py_int (get_or (RawStrategy.timeline_days strategy) (RawNumber 7)) with
  | None => None
  | Some timeline =>
    match py_float (get_or (RawStrategy.estimated_cost strategy) (RawNumber 0)) with
    | None => None
    | Some cost =>
      match py_float (get_or (RawStrategy.risk_reduction strategy) (RawNumber 0)) with
      | None => None
      | Some reduction =>
        Some
          {| MitigationStrategy.strategy_name :=
               str_prefix 100
                 (get_or (RawStrategy.strategy_name strategy) "Strategy");
             MitigationStrategy.action_steps :=
               map (str_prefix 500)
                 (firstn 10 (get_or (RawStrategy.action_steps strategy) []));
             MitigationStrategy.timeline_days := Z.max 1 timeline;
             MitigationStrategy.estimated_cost := py_max 0 cost;
             MitigationStrategy.risk_reduction := py_min 100 (py_max 0 reduction);
             MitigationStrategy.dependencies :=
               map (str_prefix 200)
                 (firstn 5 (get_or (RawStrategy.dependencies strategy) []));
             MitigationStrategy.pros :=
               map (str_prefix 200)
                 (firstn 5 (get_or (RawStrategy.pros strategy) []));
             MitigationStrategy.cons :=
               map (str_prefix 200)
                 (firstn 5 (get_or (RawStrategy.cons strategy) [])) |}
      end
    end
  end.

Definition _validate_strategies (strategies : list RawStrategy.t)
  : list MitigationStrategy.t :=
  fold_left
    (fun (validated : list MitigationStrategy.t) strategy =>
       match clean_strategy strategy with
       | Some clean => (validated ++ [clean])%list
       | None => validated
       end)
    strategies [].

(** The bounds the validator imposes on a strategy. *)
Definition short_strings (items width : nat) (l : list string) : Prop :=
  (length l <= items)%nat /\
  Forall (fun s => (String.length s <= width)%nat) l.

Definition within_bounds (s : MitigationStrategy.t) : Prop :=
  (String.length (MitigationStrategy.strategy_name s) <= 100)%nat /\
  short_strings 10 500 (MitigationStrategy.action_steps s) /\
  (1 <= MitigationStrategy.timeline_days s)%Z /\
  0 <= MitigationStrategy.estimated_cost s /\
  0 <= MitigationStrategy.risk_reduction s <= 100 /\
  short_strings 5 200 (MitigationStrategy.dependencies s) /\
  short_strings 5 200 (MitigationStrategy.pros s) /\
  short_strings 5 200 (MitigationStrategy.cons s).

(** A validated strategy written back as the dictionary it would be in
    JSON. *)
Definition as_raw (s : MitigationStrategy.t) : RawStrategy.t :=
  {| RawStrategy.strategy_name := Some (MitigationStrategy.strategy_name s);
     RawStrategy.action_steps := Some (MitigationStrategy.action_steps s);
     RawStrategy.timeline_days :=
       Some (RawNumber (inject_Z (MitigationStrategy.timeline_days s)));
     RawStrategy.estimated_cost :=
       Some (RawNumber (MitigationStrategy.estimated_cost s));
     RawStrategy.risk_reduction :=
       Some (RawNumber (MitigationStrategy.risk_reduction s));
     RawStrategy.dependencies := Some (MitigationStrategy.dependencies s);
     RawStrategy.pros := Some (MitigationStrategy.pros s);
     RawStrategy.cons := Some (MitigationStrategy.cons s) |}.


(** ** The domain score methods as functions of the timeline *)

Definition call_timeline (c : domain_call) : Z :=
  match c with
  | SupplierCall _ _ _ t _ => t
  | ProductionCall _ _ _ t => t
  | InventoryCall _ _ _ _ t => t
  | DemandCall _ _ _ t => t
  | TransportationCall _ _ t _ => t
  | ExternalCall _ _ _ t => t
  end.

(** The same call with another [timeline_days]. *)
Definition with_timeline (c : domain_call) (t : Z) : domain_call :=
  match c with
  | SupplierCall f h w _ r => SupplierCall f h w t r
  | ProductionCall u d h _ => ProductionCall u d h t
  | InventoryCall i s d l _ => InventoryCall i s d l t
  | DemandCall y u l _ => DemandCall y u l t
  | TransportationCall f b _ r => TransportationCall f b t r
  | ExternalCall ft f h _ => ExternalCall ft f h t
  end.

(** The safety stock of an inventory call is not negative. *)
Definition valid_stock (c : domain_call) : Prop :=
  match c with
  | InventoryCall _ safety_stock _ _ _ => 0 <= safety_stock
  | _ => True
  end.

(** The historical baseline a ratio gate divides by is zero. *)
Definition zero_baseline (c : domain_call) : Prop :=
  match c with
  | SupplierCall _ historical_avg_lead_time _ _ _ =>
      historical_avg_lead_time == 0
  | DemandCall yhat _ _ _ => yhat == 0
  | TransportationCall _ baseline_transit_time _ _ =>
      baseline_transit_time == 0
  | ExternalCall factor_type _ historical_value _ =>
      (factor_type = "tariff_rate" \/ factor_type = "fuel_price_usd") /\
      historical_value == 0
  | _ => False
  end.

(** The value [calculate_composite_score] returns. *)
Definition composite_value (i p u m : Q) : Q :=
  clamp (raw_score (clamp i 0 100) (clamp p 0 1) (clamp u 0 100)
         / clamp m 0.1 1.0) 0 100.

(** The six keys every open-gate dictionary starts with. *)
Definition detected_fields (score : Q) (priority : string)
    (probability impact_severity urgency : Q) (rest : pydict) : pydict :=
  ("risk_detected", VBool true) ::
  ("risk_score", VNum (py_round score 2)) ::
  ("priority", VStr priority) ::
  ("probability", VNum (py_round probability 2)) ::
  ("impact_severity", VNum (py_round impact_severity 2)) ::
  ("urgency", VNum (py_round urgency 2)) :: rest.

(** What a score method is as a function [run] of the timeline alone:
    either the gate is closed at every timeline, or the result is the
    open-gate dictionary of one impact [i], probability [p] and readiness
    [m], which do not depend on the timeline. *)
Definition score_shape (run : Z -> result pydict) (valid : Prop) : Prop :=
  (forall t, run t = Ok no_risk_result) \/
  (exists i p m,
     (forall t, exists priority rest,
        classify_risk_priority (composite_value i p (urgency_of t) m)
          = Ok priority /\
        run t = Ok (detected_fields (composite_value i p (urgency_of t) m)
                      priority p i (urgency_of t) rest)) /\
     0 <= p <= 1 /\ 0 <= i <= 100 /\
     (valid -> 15 * clamp m 0.1 1.0 <= i * 0.4 + p * 30)).

(** ** services/mitigation_service.py: the external call, its retries and
    the fallback

    The Groq client is the one external collaborator.  What the service
    sees of it is the outcome of each call of [chat.completions.create],
    given the number of calls made so far and the prompt: the content of
    the first choice (which may be [None]), or an exception, raised by the
    call or by the reading of the response.  The service state threaded
    through the methods counts the calls made and records the seconds
    slept. *)

Inductive api_outcome : Type :=
| ApiContent (content : option string)
| ApiRaises.

Record service_state : Type := {
  api_calls : nat;
  slept : list Z
}.

(** [config.GROQ_MAX_RETRIES] *)
Definition GROQ_MAX_RETRIES : nat := 3.

Module MitigationService.
Record t : Type := {
  client : option (nat -> string -> api_outcome);
  max_retries : nat
}.
End MitigationService.

(** [MitigationService()], with the client it managed to build, if any. *)
Definition new_MitigationService
    (client : option (nat -> string -> api_outcome)) : MitigationService.t :=
  {| MitigationService.client := client;
     MitigationService.max_retries := GROQ_MAX_RETRIES |}.

(** The [for attempt in range(self.max_retries)] loop of [_call_groq_api]
    over the attempts still to make. *)
Fixpoint call_attempts (script : nat -> string -> api_outcome)
    (max_retries : nat) (prompt : string) (attempts : list nat)
    (st : service_state) : option string * service_state :=
  match attempts with
  | [] => (None, st)
  | attempt :: rest =>
      let called := {| api_calls := S (api_calls st); slept := slept st |} in
      match script (api_calls st) prompt with
      | ApiContent content => (content, called)
      | ApiRaises =>
          let waited :=
            if (Z.of_nat attempt <? Z.of_nat max_retries - 1)%Z
            then {| api_calls := api_calls called;
                    slept := slept called ++ [(2 ^ Z.of_nat attempt)%Z] |}
            else called in
          call_attempts script max_retries prompt rest waited
      end
  end.

Definition _call_groq_api (self : MitigationService.t) (prompt : string)
    (st : service_state) : option string * service_state :=
  match MitigationService.client self with
  | None => (None, st)
  | Some script =>
      call_attempts script (MitigationService.max_retries self) prompt
        (seq 0 (MitigationService.max_retries self)) st
  end.


Section GenerateMitigations.
(** [_build_prompt] and [_parse_llm_response] format text and parse JSON;
    here they are any two functions.  [_parse_llm_response] catches what
    its parsers raise and returns a list, empty on failure. *)
Variable _build_prompt : RiskItem.t -> string.
Variable _parse_llm_response : string -> list MitigationStrategy.t.


(** ** services/forecast_service.py: ForecastService.add_mitigations *)

(** [risk["mitigations"] = mitigations] *)
Definition set_mitigations (risk : RiskItem.t)
    (mitigations : list MitigationStrategy.t) : RiskItem.t :=
  {| RiskItem.risk_id := RiskItem.risk_id risk;
     RiskItem.category := RiskItem.category risk;
     RiskItem.sub_categories := RiskItem.sub_categories risk;
     RiskItem.impact := RiskItem.impact risk;
     RiskItem.severity := RiskItem.severity risk;
     RiskItem.probability := RiskItem.probability risk;
     RiskItem.risk_score := RiskItem.risk_score risk;
     RiskItem.priority := RiskItem.priority risk;
     RiskItem.timeline_days := RiskItem.timeline_days risk;
     RiskItem.affected_entities := RiskItem.affected_entities risk;
     RiskItem.forecasted_metrics := RiskItem.forecasted_metrics risk;
     RiskItem.root_causes := RiskItem.root_causes risk;
     RiskItem.mitigations := mitigations |}.





End GenerateMitigations.
(** ** helpers.calculate_percentage_change *)



(** * Properties *)

(** ** Numeric primitives *)

Lemma Qlt_bool_iff (x y : Q) : Qlt_bool x y = true <-> x < y.
Proof.
  unfold Qlt_bool. rewrite negb_true_iff.
  split; intro H.
  - apply Qnot_le_lt. intro C. apply Qle_bool_iff in C. congruence.
  - destruct (Qle_bool y x) eqn:E; [|reflexivity].
    apply Qle_bool_iff in E. exfalso. apply (Qlt_not_le _ _ H E).
Qed.

Lemma Qlt_bool_false_iff (x y : Q) : Qlt_bool x y = false <-> y <= x.
Proof.
  unfold Qlt_bool. rewrite negb_false_iff. apply Qle_bool_iff.
Qed.

Lemma py_min_cases (a b : Q) :
  (b < a /\ py_min a b = b) \/ (a <= b /\ py_min a b = a).
Proof.
  unfold py_min. destruct (Qlt_bool b a) eqn:E.
  - left. split; [apply Qlt_bool_iff, E | reflexivity].
  - right. split; [apply Qlt_bool_false_iff, E | reflexivity].
Qed.

Lemma py_max_cases (a b : Q) :
  (a < b /\ py_max a b = b) \/ (b <= a /\ py_max a b = a).
Proof.
  unfold py_max. destruct (Qlt_bool a b) eqn:E.
  - left. split; [apply Qlt_bool_iff, E | reflexivity].
  - right. split; [apply Qlt_bool_false_iff, E | reflexivity].
Qed.

(** Case analysis on every [py_min] and [py_max] in sight, leaving linear
    arithmetic. *)
Ltac minmax :=
  repeat match goal with
  | |- context [py_min ?a ?b] =>
      let H := fresh "Hmin" in let E := fresh "Emin" in
      destruct (py_min_cases a b) as [[H E] | [H E]]; rewrite E in *; clear E
  | |- context [py_max ?a ?b] =>
      let H := fresh "Hmax" in let E := fresh "Emax" in
      destruct (py_max_cases a b) as [[H E] | [H E]]; rewrite E in *; clear E
  | _ : context [py_min ?a ?b] |- _ =>
      let H := fresh "Hmin" in let E := fresh "Emin" in
      destruct (py_min_cases a b) as [[H E] | [H E]]; rewrite E in *; clear E
  | _ : context [py_max ?a ?b] |- _ =>
      let H := fresh "Hmax" in let E := fresh "Emax" in
      destruct (py_max_cases a b) as [[H E] | [H E]]; rewrite E in *; clear E
  end.

Lemma clamp_bounds (v lo hi : Q) : lo <= hi -> lo <= clamp v lo hi <= hi.
Proof. intro H. unfold clamp. minmax; lra. Qed.

Lemma clamp_in_range (v lo hi : Q) : lo <= v <= hi -> clamp v lo hi == v.
Proof. intros [H1 H2]. unfold clamp. minmax; lra. Qed.

#[global] Instance Qlt_bool_proper : Proper (Qeq ==> Qeq ==> eq) Qlt_bool.
Proof. intros x x' Hx y y' Hy. unfold Qlt_bool. now rewrite Hx, Hy. Qed.

#[global] Instance py_min_proper : Proper (Qeq ==> Qeq ==> Qeq) py_min.
Proof.
  intros x x' Hx y y' Hy. unfold py_min. rewrite Hx, Hy.
  destruct (Qlt_bool y' x'); assumption.
Qed.

#[global] Instance py_max_proper : Proper (Qeq ==> Qeq ==> Qeq) py_max.
Proof.
  intros x x' Hx y y' Hy. unfold py_max. rewrite Hx, Hy.
  destruct (Qlt_bool x' y'); assumption.
Qed.

#[global] Instance clamp_proper : Proper (Qeq ==> Qeq ==> Qeq ==> Qeq) clamp.
Proof.
  intros v v' Hv lo lo' Hlo hi hi' Hhi. unfold clamp. now rewrite Hv, Hlo, Hhi.
Qed.

#[global] Instance raw_score_proper : Proper (Qeq ==> Qeq ==> Qeq ==> Qeq) raw_score.
Proof. intros a a' Ha b b' Hb c c' Hc. unfold raw_score. now rewrite Ha, Hb, Hc. Qed.

Lemma py_div_ok (a b : Q) : ~ b == 0 -> py_div a b = Ok (a / b).
Proof.
  intro H. unfold py_div. destruct (Qeq_bool b 0) eqn:E; [|reflexivity].
  apply Qeq_bool_eq in E. contradiction.
Qed.

Lemma py_div_zero (a b : Q) : b == 0 -> py_div a b = Raise ZeroDivisionError.
Proof. intro H. unfold py_div. now rewrite (Qeq_eq_bool _ _ H). Qed.

(** ** The composite score *)

(** The divisor of the composite score is never below 0.1. *)
Lemma readiness_clamped (m : Q) : 0.1 <= clamp m 0.1 1.0 <= 1.
Proof. pose proof (clamp_bounds m 0.1 1.0). lra. Qed.

Lemma composite_unfold (i p u m : Q) :
  calculate_composite_score i p u m =
  Ok (clamp (raw_score (clamp i 0 100) (clamp p 0 1) (clamp u 0 100)
             / clamp m 0.1 1.0) 0 100).
Proof.
  unfold calculate_composite_score.
  rewrite py_div_ok; [reflexivity|].
  pose proof (readiness_clamped m). lra.
Qed.

(** C10: the composite score is total on all rational arguments: the four
    arguments are first clamped to [0,100], [0,1], [0,100] and [0.1,1.0], the
    divisor is at least 0.1 (so the division never raises), and the score
    returned lies in [0,100]. *)
Theorem composite_score_total_and_bounded (i p u m : Q) :
  let i' := clamp i 0 100 in
  let p' := clamp p 0 1 in
  let u' := clamp u 0 100 in
  let m' := clamp m 0.1 1.0 in
  (0 <= i' <= 100 /\ 0 <= p' <= 1 /\ 0 <= u' <= 100 /\ 0.1 <= m' <= 1) /\
  py_div (raw_score i' p' u') m' = Ok (raw_score i' p' u' / m') /\
  exists score,
    calculate_composite_score i p u m = Ok score /\
    score = clamp (raw_score i' p' u' / m') 0 100 /\
    0 <= score <= 100.
Proof.
  cbv zeta.
  pose proof (readiness_clamped m) as Hm.
  split; [|split].
  - repeat split; try (apply clamp_bounds; lra); apply Hm.
  - apply py_div_ok. lra.
  - eexists. split; [apply composite_unfold|]. split; [reflexivity|].
    apply clamp_bounds. lra.
Qed.

(** C1: on in-range arguments the composite score is
    [clamp((impact*0.4 + probability*100*0.3 + urgency*0.3) / readiness, 0, 100)]. *)
Theorem composite_score_formula (i p u m : Q) :
  0 <= i <= 100 -> 0 <= p <= 1 -> 0 <= u <= 100 -> 0.1 <= m <= 1.0 ->
  exists score,
    calculate_composite_score i p u m = Ok score /\
    score == clamp ((i * 0.4 + p * 100 * 0.3 + u * 0.3) / m) 0 100.
Proof.
  intros Hi Hp Hu Hm.
  eexists. split; [apply composite_unfold|].
  rewrite (clamp_in_range i), (clamp_in_range p), (clamp_in_range u),
    (clamp_in_range m) by assumption.
  reflexivity.
Qed.

Lemma composite_score_formula_witness :
  exists score,
    calculate_composite_score 50 0.5 50 0.5 = Ok score /\
    score == clamp ((50 * 0.4 + 0.5 * 100 * 0.3 + 50 * 0.3) / 0.5) 0 100.
Proof. apply composite_score_formula; lra. Defined.

(** ** Helpers of the scorer *)

Lemma safe_division_ok (n d default : Q) :
  safe_division n d default = Ok (if Qeq_bool d 0 then default else n / d).
Proof.
  unfold safe_division, py_div. destruct (Qeq_bool d 0); reflexivity.
Qed.

Lemma classify_risk_priority_unfold (s : Q) :
  classify_risk_priority s =
  Ok (if Qle_bool 90 s then "CRITICAL"
      else if Qle_bool 70 s then "HIGH"
      else if Qle_bool 50 s then "MEDIUM"
      else "LOW").
Proof.
  unfold classify_risk_priority.
  change (dict_item RISK_PRIORITY_THRESHOLDS "CRITICAL") with (Ok 90).
  change (dict_item RISK_PRIORITY_THRESHOLDS "HIGH") with (Ok 70).
  change (dict_item RISK_PRIORITY_THRESHOLDS "MEDIUM") with (Ok 50).
  cbn [bind].
  destruct (Qle_bool 90 s), (Qle_bool 70 s), (Qle_bool 50 s); reflexivity.
Qed.

Lemma classify_risk_priority_total (s : Q) :
  exists p, classify_risk_priority s = Ok p.
Proof. rewrite classify_risk_priority_unfold. eauto. Qed.

(** Inversion of a successful run: every [bind] on the way returned, and
    every branch taken is recorded. *)
Ltac invert_run H :=
  repeat match type of H with
  | bind ?m _ = Ok _ =>
      let E := fresh "Erun" in
      destruct m eqn:E; cbn [bind] in H; [|discriminate H]
  | (if ?b then _ else _) = Ok _ =>
      let E := fresh "Egate" in destruct b eqn:E
  end.

Ltac finish_detected H :=
  invert_run H; injection H as <-; reflexivity.

Section Gate.
Variable self : RiskScorer.
Hypothesis self_thresholds : thresholds self = RISK_THRESHOLDS.

(** Each score method either returns the closed-gate literal, without
    consulting the composite-score method, or can only return a dictionary
    whose [risk_detected] is [True]. *)
Lemma gate_dichotomy (c : domain_call) :
  (forall self', thresholds self' = RISK_THRESHOLDS ->
     domain_score self' c = Ok no_risk_result) \/
  (forall r, domain_score self c = Ok r ->
     dict_lookup r "risk_detected" = Some (VBool true)).
Proof.
  destruct c; cbn [domain_score].
  - unfold calculate_supplier_risk_score.
    rewrite safe_division_ok. cbn [bind].
    destruct (negb _) eqn:G.
    + left. intros self' E'. rewrite E'.
      rewrite self_thresholds in G. now rewrite G.
    + right. intros r H. finish_detected H.
  - unfold calculate_production_risk_score.
    rewrite safe_division_ok. cbn [bind].
    destruct (negb _) eqn:G.
    + left. intros self' E'. rewrite E'.
      rewrite self_thresholds in G. now rewrite G.
    + right. intros r H. finish_detected H.
  - unfold calculate_inventory_risk_score.
    destruct (negb _) eqn:G.
    + left. intros self' E'. reflexivity.
    + right. intros r H. finish_detected H.
  - unfold calculate_demand_volatility_score.
    rewrite safe_division_ok. cbn [bind].
    destruct (negb _) eqn:G.
    + left. intros self' E'. rewrite E'.
      rewrite self_thresholds in G. now rewrite G.
    + right. intros r H. finish_detected H.
  - unfold calculate_transportation_risk_score.
    rewrite safe_division_ok. cbn [bind].
    destruct (negb _) eqn:G.
    + left. intros self' E'. rewrite E'.
      rewrite self_thresholds in G. now rewrite G.
    + right. intros r H. finish_detected H.
  - unfold calculate_external_factor_risk_score.
    destruct (external_factor_branches self factor_type
                forecasted_value historical_value) as [locals|e] eqn:B.
    + cbn [bind]. destruct (negb _) eqn:G.
      * left. intros self' E'.
        assert (B' : external_factor_branches self' factor_type
                       forecasted_value historical_value = Ok locals).
        { rewrite <- B. unfold external_factor_branches.
          now rewrite E', self_thresholds. }
        rewrite B'. cbn [bind]. now rewrite G.
      * right. intros r H. finish_detected H.
    + right. intros r H. discriminate H.
Qed.
End Gate.

(** ** Rounding keeps integer bounds *)

Lemma round_half_even_bounds (y : Q) (lo hi : Z) :
  inject_Z lo <= y <= inject_Z hi ->
  (lo <= round_half_even y <= hi)%Z.
Proof.
  intros [Hlo Hhi].
  pose proof (Qfloor_le y) as Hfl.
  pose proof (Qfloor_resp_le _ _ Hlo) as Hl. rewrite Qfloor_Z in Hl.
  pose proof (Qfloor_resp_le _ _ Hhi) as Hh. rewrite Qfloor_Z in Hh.
  assert (Hup : 1 # 2 <= y - inject_Z (Qfloor y) -> (Qfloor y + 1 <= hi)%Z).
  { intro Hd. destruct (Z.eq_dec (Qfloor y) hi) as [E|NE]; [|lia].
    rewrite E in Hd. lra. }
  unfold round_half_even.
  destruct (Qlt_bool (y - inject_Z (Qfloor y)) (1 # 2)) eqn:E1; [lia|].
  apply Qlt_bool_false_iff in E1. specialize (Hup E1).
  destruct (Qlt_bool (1 # 2) (y - inject_Z (Qfloor y))); [lia|].
  destruct (Z.even (Qfloor y)); lia.
Qed.

Lemma py_round_bounds (x : Q) (lo hi : Z) (ndigits : nat) :
  inject_Z lo <= x <= inject_Z hi ->
  inject_Z lo <= py_round x ndigits <= inject_Z hi.
Proof.
  intros [Hlo Hhi]. unfold py_round.
  set (k := (10 ^ Z.of_nat ndigits)%Z).
  assert (Hk : (0 < k)%Z) by (apply Z.pow_pos_nonneg; lia).
  assert (HkQ : 0 < inject_Z k).
  { change 0 with (inject_Z 0). rewrite <- Zlt_Qlt. exact Hk. }
  destruct (round_half_even_bounds (x * inject_Z k) (lo * k) (hi * k)) as [B1 B2].
  { rewrite !inject_Z_mult. split; apply Qmult_le_compat_r; lra. }
  rewrite Zle_Qle, inject_Z_mult in B1, B2.
  split.
  - apply Qle_shift_div_l; assumption.
  - apply Qle_shift_div_r; assumption.
Qed.

Lemma round_score_bounds (x : Q) (n : nat) :
  0 <= x <= 100 -> 0 <= py_round x n <= 100.
Proof. exact (py_round_bounds x 0 100 n). Qed.

Lemma round_probability_bounds (x : Q) (n : nat) :
  0 <= x <= 1 -> 0 <= py_round x n <= 1.
Proof. exact (py_round_bounds x 0 1 n). Qed.

(** ** Ranges of the score fields *)

Ltac divconst :=
  unfold Qdiv in *;
  repeat match goal with
  | |- context [Qinv (Qmake ?n ?d)] =>
      let v := eval vm_compute in (Qinv (Qmake n d)) in
      change (Qinv (Qmake n d)) with v
  | H : context [Qinv (Qmake ?n ?d)] |- _ =>
      let v := eval vm_compute in (Qinv (Qmake n d)) in
      change (Qinv (Qmake n d)) with v in H
  end.

Lemma no_risk_in_range : scores_in_range no_risk_result.
Proof. exists 0, 0, 0. repeat split; try reflexivity; lra. Qed.

Lemma detected_in_range (s p i : Q) (priority : string) (rest : pydict) :
  0 <= s <= 100 -> 0 <= p <= 1 -> 0 <= i <= 100 ->
  scores_in_range
    (("risk_detected", VBool true) ::
     ("risk_score", VNum (py_round s 2)) ::
     ("priority", VStr priority) ::
     ("probability", VNum (py_round p 2)) ::
     ("impact_severity", VNum (py_round i 2)) :: rest).
Proof.
  intros Hs Hp Hi.
  exists (py_round s 2), (py_round p 2), (py_round i 2).
  split; [reflexivity|]. split; [apply round_score_bounds, Hs|].
  split; [reflexivity|]. split; [apply round_probability_bounds, Hp|].
  split; [reflexivity|]. apply round_score_bounds, Hi.
Qed.

Lemma composite_bounds (i p u m : Q) :
  0 <= clamp (raw_score (clamp i 0 100) (clamp p 0 1) (clamp u 0 100)
              / clamp m 0.1 1.0) 0 100 <= 100.
Proof. apply clamp_bounds. lra. Qed.

(** After the gate has opened: run the composite score and the priority
    classification of the real scorer and reduce to the three range goals. *)
Ltac score_tail :=
  cbn [self_calculate_composite_score new_RiskScorer];
  rewrite composite_unfold; cbn [bind];
  rewrite classify_risk_priority_unfold; cbn [bind];
  eexists; split; [reflexivity|];
  apply detected_in_range; [apply composite_bounds | |].

Lemma supplier_in_range (f h w : Q) (t : Z) (r : Q) :
  exists d, calculate_supplier_risk_score new_RiskScorer f h w t r = Ok d /\
            scores_in_range d.
Proof.
  unfold calculate_supplier_risk_score.
  change (dict_get (thresholds new_RiskScorer) "supplier_lead_time_multiplier" 1.2)
    with 1.2.
  rewrite safe_division_ok. cbn [bind].
  set (ratio := if Qeq_bool h 0 then 1.0 else f / h).
  destruct (Qlt_bool 1.2 ratio) eqn:G; cbn [negb];
    [|exists no_risk_result; split; [reflexivity | apply no_risk_in_range]].
  apply Qlt_bool_iff in G.
  assert (Hf : ~ f == 0).
  { intro Hf. subst ratio. destruct (Qeq_bool h 0); [lra|].
    rewrite Hf in G. unfold Qdiv in G. lra. }
  rewrite (py_div_ok _ _ Hf). cbn [bind].
  score_tail.
  - apply clamp_bounds. lra.
  - minmax; lra.
Qed.

Ltac closed_gate :=
  exists no_risk_result; split; [reflexivity | apply no_risk_in_range].

Lemma production_in_range (u d h : Q) (t : Z) :
  exists r, calculate_production_risk_score new_RiskScorer u d h t = Ok r /\
            scores_in_range r.
Proof.
  unfold calculate_production_risk_score.
  change (dict_get (thresholds new_RiskScorer) "capacity_utilization_threshold" 0.95)
    with 0.95.
  change (dict_get (thresholds new_RiskScorer) "downtime_increase_threshold" 0.2)
    with 0.2.
  rewrite safe_division_ok. cbn [bind].
  assert (Hden : ~ 1 - 0.95 == 0) by lra.
  rewrite !(py_div_ok _ _ Hden).
  destruct (Qlt_bool 0.95 u), (Qlt_bool 0.2 _); cbn [negb orb bind];
    try closed_gate; score_tail; apply clamp_bounds; lra.
Qed.

Lemma inventory_in_range (i s d l : Q) (t : Z) :
  exists r, calculate_inventory_risk_score new_RiskScorer i s d l t = Ok r /\
            scores_in_range r.
Proof.
  unfold calculate_inventory_risk_score.
  rewrite !safe_division_ok.
  destruct (Qlt_bool i s), (Qlt_bool l d); cbn [negb orb bind];
    try closed_gate; score_tail; apply clamp_bounds; lra.
Qed.

Lemma demand_in_range (y u l : Q) (t : Z) :
  exists r, calculate_demand_volatility_score new_RiskScorer y u l t = Ok r /\
            scores_in_range r.
Proof.
  unfold calculate_demand_volatility_score.
  change (dict_get (thresholds new_RiskScorer) "demand_volatility_threshold" 0.3)
    with 0.3.
  rewrite safe_division_ok. cbn [bind].
  set (volatility := if Qeq_bool y 0 then 0 else (u - l) / y).
  destruct (Qlt_bool 0.3 volatility) eqn:G; cbn [negb]; [|closed_gate].
  apply Qlt_bool_iff in G.
  rewrite py_div_ok by lra. cbn [bind].
  score_tail.
  - minmax; divconst; lra.
  - minmax; lra.
Qed.

Lemma transportation_in_range (f b : Q) (t : Z) (r : Q) :
  exists d, calculate_transportation_risk_score new_RiskScorer f b t r = Ok d /\
            scores_in_range d.
Proof.
  unfold calculate_transportation_risk_score.
  change (dict_get (thresholds new_RiskScorer) "transit_time_multiplier" 1.3)
    with 1.3.
  rewrite safe_division_ok. cbn [bind].
  set (ratio := if Qeq_bool b 0 then 1.0 else f / b).
  destruct (Qlt_bool 1.3 ratio) eqn:G; cbn [negb]; [|closed_gate].
  apply Qlt_bool_iff in G.
  score_tail.
  - apply clamp_bounds. lra.
  - minmax; lra.
Qed.

Lemma external_factor_branches_total (self : RiskScorer) (ft : string) (f h : Q) :
  exists locals, external_factor_branches self ft f h = Ok locals.
Proof.
  unfold external_factor_branches. rewrite !safe_division_ok. cbn [bind].
  repeat match goal with
  | |- context [if ?b then _ else _] => destruct b
  end; eauto.
Qed.

Lemma external_in_range (ft : string) (f h : Q) (t : Z) :
  exists r, calculate_external_factor_risk_score new_RiskScorer ft f h t = Ok r /\
            scores_in_range r.
Proof.
  unfold calculate_external_factor_risk_score.
  destruct (external_factor_branches_total new_RiskScorer ft f h) as [locals E].
  rewrite E. cbn [bind].
  destruct (fl_risk_detected locals); cbn [negb]; [|closed_gate].
  score_tail; apply clamp_bounds; lra.
Qed.

(** C3: every call of a domain score method returns a dictionary whose
    [risk_score] lies in [0,100], whose [probability] lies in [0,1] and whose
    [impact_severity] lies in [0,100], whether or not a risk was detected. *)
Theorem domain_scores_in_range (c : domain_call) :
  exists r,
    domain_score new_RiskScorer c = Ok r /\
    exists s p i,
      dict_lookup r "risk_score" = Some (VNum s) /\ 0 <= s <= 100 /\
      dict_lookup r "probability" = Some (VNum p) /\ 0 <= p <= 1 /\
      dict_lookup r "impact_severity" = Some (VNum i) /\ 0 <= i <= 100.
Proof.
  destruct c; cbn [domain_score].
  - apply supplier_in_range.
  - apply production_in_range.
  - apply inventory_in_range.
  - apply demand_in_range.
  - apply transportation_in_range.
  - apply external_in_range.
Qed.

(** C2: whenever a domain score method returns a dictionary whose
    [risk_detected] is [False], that dictionary is the closed-gate literal:
    its [risk_score] is exactly 0 and its [priority] is ["LOW"]; and the same
    dictionary is returned by a scorer whose composite-score method raises
    on every call, so the composite score was not computed. *)
Theorem non_detected_zero_low (c : domain_call) (r : pydict) :
  domain_score new_RiskScorer c = Ok r ->
  dict_lookup r "risk_detected" = Some (VBool false) ->
  dict_lookup r "risk_score" = Some (VNum 0) /\
  dict_lookup r "priority" = Some (VStr "LOW") /\
  r = no_risk_result /\
  domain_score composite_trap c = Ok r.
Proof.
  intros Hrun Hflag.
  destruct (gate_dichotomy new_RiskScorer eq_refl c) as [Hclosed | Hopen].
  - rewrite (Hclosed new_RiskScorer eq_refl) in Hrun. injection Hrun as <-.
    repeat split; try reflexivity. apply Hclosed. reflexivity.
  - rewrite (Hopen r Hrun) in Hflag. discriminate Hflag.
Qed.

Lemma non_detected_zero_low_witness :
  dict_lookup no_risk_result "risk_score" = Some (VNum 0) /\
  dict_lookup no_risk_result "priority" = Some (VStr "LOW") /\
  no_risk_result = no_risk_result /\
  domain_score composite_trap (SupplierCall 11 10 1 45 0.9) = Ok no_risk_result.
Proof.
  apply (non_detected_zero_low (SupplierCall 11 10 1 45 0.9) no_risk_result);
    reflexivity.
Defined.

(** Baseline lead time 10 days: a forecast of 13 days opens the supplier
    gate (ratio 1.3 > 1.2), a forecast of 11 days does not. *)
Example supplier_gate_example :
  (exists r, calculate_supplier_risk_score new_RiskScorer 13 10 1 45 0.9 = Ok r /\
             dict_lookup r "risk_detected" = Some (VBool true) /\
             dict_lookup r "priority" = Some (VStr "HIGH")) /\
  calculate_supplier_risk_score new_RiskScorer 11 10 1 45 0.9 = Ok no_risk_result.
Proof.
  split; [|reflexivity].
  eexists. split; [vm_compute; reflexivity|]. split; reflexivity.
Qed.

(** Inventory 50 under a safety stock of 100 is a shortage whatever the
    demand; inventory 150 with demand 80 below the inventory floor 120 is
    no risk. *)
Example inventory_gate_example :
  (exists r, calculate_inventory_risk_score new_RiskScorer 50 100 0 40 45 = Ok r /\
             dict_lookup r "shortage_risk" = Some (VBool true)) /\
  calculate_inventory_risk_score new_RiskScorer 150 100 80 120 45 = Ok no_risk_result.
Proof.
  split; [|reflexivity].
  eexists. split; [vm_compute; reflexivity|]. reflexivity.
Qed.

(** ** The external-factor method on an unrecognised factor type *)

Lemma unrecognized_branches (self : RiskScorer) (ft : string) (f h : Q) :
  ~ In ft recognized_factor_types ->
  external_factor_branches self ft f h =
  Ok {| fl_risk_detected := false; fl_probability := 0;
        fl_impact_severity := 0; fl_sub_category := ft |}.
Proof.
  intro Hnot. unfold external_factor_branches.
  repeat match goal with
  | |- context [String.eqb ft ?k] =>
      let E := fresh "E" in
      destruct (String.eqb ft k) eqn:E;
        [apply String.eqb_eq in E; exfalso; apply Hnot; rewrite E; cbn; tauto|]
  end.
  reflexivity.
Qed.

(** C7 (as amended): on a factor type that is not one of the five recognised
    ones the external-factor method raises nothing: it returns the
    closed-gate dictionary ([risk_detected] false, [risk_score] 0, priority
    LOW). *)
Theorem unknown_factor_type_returns_no_risk
    (self : RiskScorer) (ft : string) (f h : Q) (t : Z) :
  ~ In ft recognized_factor_types ->
  calculate_external_factor_risk_score self ft f h t = Ok no_risk_result.
Proof.
  intro Hnot. unfold calculate_external_factor_risk_score.
  rewrite (unrecognized_branches self ft f h Hnot). reflexivity.
Qed.

Lemma not_recognized_solar : ~ In "solar_flare_index" recognized_factor_types.
Proof.
  cbn. intros [H|[H|[H|[H|[H|[]]]]]]; discriminate H.
Defined.

Lemma unknown_factor_type_returns_no_risk_witness :
  calculate_external_factor_risk_score new_RiskScorer "solar_flare_index" 9 5 30
  = Ok no_risk_result.
Proof.
  apply (unknown_factor_type_returns_no_risk
           new_RiskScorer "solar_flare_index" 9 5 30).
  exact not_recognized_solar.
Defined.

(** C7 as stated fails: the factor type ["solar_flare_index"] is not one
    of the five recognised ones, and the call returns the closed-gate
    dictionary instead of raising. *)
Lemma unknown_factor_type_raises_counterexample :
  ~ In "solar_flare_index" recognized_factor_types /\
  calculate_external_factor_risk_score new_RiskScorer "solar_flare_index" 9 5 30
    = Ok no_risk_result /\
  ~ (exists e,
       calculate_external_factor_risk_score new_RiskScorer "solar_flare_index" 9 5 30
       = Raise e).
Proof.
  split; [exact not_recognized_solar|].
  split; [reflexivity|].
  intros [e He]. vm_compute in He. discriminate He.
Qed.

(** ** Priority classification *)

Lemma Qle_bool_false_iff (a b : Q) : Qle_bool a b = false <-> b < a.
Proof.
  rewrite <- Qlt_bool_iff. unfold Qlt_bool.
  destruct (Qle_bool a b); cbn; intuition congruence.
Qed.

(** The three comparisons of the classification, as propositions. *)
Ltac classify_cases s :=
  destruct (Qle_bool 90 s) eqn:E90; destruct (Qle_bool 70 s) eqn:E70;
  destruct (Qle_bool 50 s) eqn:E50;
  repeat match goal with
  | H : Qle_bool _ _ = true |- _ => apply Qle_bool_iff in H
  | H : Qle_bool _ _ = false |- _ => apply Qle_bool_false_iff in H
  end.

Lemma classify_cells (s : Q) :
  (classify_risk_priority s = Ok "CRITICAL" <-> 90 <= s) /\
  (classify_risk_priority s = Ok "HIGH" <-> 70 <= s < 90) /\
  (classify_risk_priority s = Ok "MEDIUM" <-> 50 <= s < 70) /\
  (classify_risk_priority s = Ok "LOW" <-> s < 50).
Proof.
  rewrite !classify_risk_priority_unfold.
  classify_cases s;
    repeat split; intros; try discriminate; try reflexivity; lra.
Qed.

Lemma classify_label (s : Q) :
  exists p, classify_risk_priority s = Ok p /\
            In p ["CRITICAL"; "HIGH"; "MEDIUM"; "LOW"].
Proof.
  rewrite classify_risk_priority_unfold.
  destruct (Qle_bool 90 s), (Qle_bool 70 s), (Qle_bool 50 s);
    eexists; (split; [reflexivity|]); cbn; tauto.
Qed.

Lemma classify_monotone (s s' : Q) :
  s <= s' ->
  exists p p', classify_risk_priority s = Ok p /\
               classify_risk_priority s' = Ok p' /\
               (priority_rank p <= priority_rank p')%nat.
Proof.
  intro Hle. rewrite !classify_risk_priority_unfold.
  do 2 eexists. split; [reflexivity|]. split; [reflexivity|].
  destruct (Qle_bool 90 s) eqn:A90; destruct (Qle_bool 70 s) eqn:A70;
    destruct (Qle_bool 50 s) eqn:A50;
    destruct (Qle_bool 90 s') eqn:B90; destruct (Qle_bool 70 s') eqn:B70;
    destruct (Qle_bool 50 s') eqn:B50;
    cbn; try lia;
    repeat match goal with
    | H : Qle_bool _ _ = true |- _ => apply Qle_bool_iff in H
    | H : Qle_bool _ _ = false |- _ => apply Qle_bool_false_iff in H
    end; lra.
Qed.

(** C4: scores of at least 90 are CRITICAL, of at least 70 (below 90) HIGH,
    of at least 50 (below 70) MEDIUM, and all others LOW; the boundaries are
    the configured ones; on [0,100] every score falls in exactly one of the
    four cells and gets exactly one label; and the classification is
    monotonic in the score. *)
Theorem classify_risk_priority_partition (s s' : Q) :
  map snd RISK_PRIORITY_THRESHOLDS = [90; 70; 50; 0] /\
  (classify_risk_priority s = Ok "CRITICAL" <-> 90 <= s) /\
  (classify_risk_priority s = Ok "HIGH" <-> 70 <= s < 90) /\
  (classify_risk_priority s = Ok "MEDIUM" <-> 50 <= s < 70) /\
  (classify_risk_priority s = Ok "LOW" <-> s < 50) /\
  (0 <= s <= 100 ->
     (0 <= s < 50 \/ 50 <= s < 70 \/ 70 <= s < 90 \/ 90 <= s <= 100) /\
     exists p, classify_risk_priority s = Ok p /\
               In p ["CRITICAL"; "HIGH"; "MEDIUM"; "LOW"] /\
               forall p', classify_risk_priority s = Ok p' -> p' = p) /\
  (s <= s' ->
     exists p p', classify_risk_priority s = Ok p /\
                  classify_risk_priority s' = Ok p' /\
                  (priority_rank p <= priority_rank p')%nat).
Proof.
  split; [reflexivity|].
  destruct (classify_cells s) as (Hc & Hh & Hm & Hl).
  repeat (split; [assumption|]).
  split; [|apply classify_monotone].
  intros [H0 H100]. split.
  - destruct (Qlt_le_dec s 50); [lra|].
    destruct (Qlt_le_dec s 70); [lra|].
    destruct (Qlt_le_dec s 90); lra.
  - destruct (classify_label s) as (p & Hp & Hin).
    exists p. split; [exact Hp|]. split; [exact Hin|].
    intros p' Hp'. congruence.
Qed.

Lemma classify_risk_priority_partition_witness :
  (exists p, classify_risk_priority 69.99 = Ok p /\
             In p ["CRITICAL"; "HIGH"; "MEDIUM"; "LOW"] /\
             forall p', classify_risk_priority 69.99 = Ok p' -> p' = p) /\
  (exists p p', classify_risk_priority 69.99 = Ok p /\
                classify_risk_priority 70 = Ok p' /\
                (priority_rank p <= priority_rank p')%nat).
Proof.
  destruct (classify_risk_priority_partition 69.99 70)
    as (_ & _ & _ & _ & _ & Hcell & Hmono).
  split; [apply Hcell; lra | apply Hmono; lra].
Defined.

(** ** The stable reverse sort *)

Section SortReverseFacts.
Context {A : Type} (key : A -> Q).

Lemma insert_desc_perm (x : A) (l : list A) :
  Permutation (insert_desc key x l) (x :: l).
Proof.
  induction l as [|y l IH]; cbn; [reflexivity|].
  destruct (Qlt_bool (key x) (key y)); [|reflexivity].
  rewrite IH. apply perm_swap.
Qed.

Lemma sort_reverse_perm (l : list A) : Permutation (sort_reverse key l) l.
Proof.
  induction l as [|x l IH]; cbn; [reflexivity|].
  rewrite insert_desc_perm. now constructor.
Qed.

Lemma insert_desc_sorted (x : A) (l : list A) :
  StronglySorted (fun a b => key b <= key a) l -> StronglySorted (fun a b => key b <= key a) (insert_desc key x l).
Proof.
  induction 1 as [|y l Hs IH Hy]; cbn.
  - repeat constructor.
  - destruct (Qlt_bool (key x) (key y)) eqn:E.
    + apply Qlt_bool_iff in E. constructor; [exact IH|].
      rewrite insert_desc_perm.
      constructor; [lra | exact Hy].
    + apply Qlt_bool_false_iff in E.
      constructor; [constructor; assumption|].
      constructor; [exact E|].
      eapply Forall_impl; [|exact Hy]. cbn. intros z Hz. lra.
Qed.

Lemma sort_reverse_sorted (l : list A) : StronglySorted (fun a b => key b <= key a) (sort_reverse key l).
Proof.
  induction l as [|x l IH]; cbn; [constructor|].
  apply insert_desc_sorted, IH.
Qed.

(** Inserting does not disturb the order among the elements of one key. *)
Lemma insert_desc_stable (q : Q) (x : A) (l : list A) :
  filter (fun a => Qeq_bool (key a) q) (insert_desc key x l) =
  filter (fun a => Qeq_bool (key a) q) (x :: l).
Proof.
  induction l as [|y l IH]; [reflexivity|].
  cbn [insert_desc].
  destruct (Qlt_bool (key x) (key y)) eqn:E; [|reflexivity].
  apply Qlt_bool_iff in E.
  cbn [filter] in *. rewrite IH.
  destruct (Qeq_bool (key x) q) eqn:Ex; [|reflexivity].
  destruct (Qeq_bool (key y) q) eqn:Ey; [|reflexivity].
  apply Qeq_bool_eq in Ex, Ey. lra.
Qed.

Lemma sort_reverse_stable (q : Q) (l : list A) :
  filter (fun a => Qeq_bool (key a) q) (sort_reverse key l) =
  filter (fun a => Qeq_bool (key a) q) l.
Proof.
  induction l as [|x l IH]; [reflexivity|].
  cbn [sort_reverse fold_right]. rewrite insert_desc_stable.
  cbn [filter]. fold (sort_reverse key l). now rewrite IH.
Qed.

(** A list already in non-increasing order is left as it is. *)
Lemma insert_desc_head (x : A) (l : list A) :
  Forall (fun y => key y <= key x) l -> insert_desc key x l = x :: l.
Proof.
  intros H. destruct l as [|y l]; [reflexivity|]. cbn.
  inversion_clear H as [|? ? Hy _].
  destruct (Qlt_bool (key x) (key y)) eqn:E; [|reflexivity].
  apply Qlt_bool_iff in E. lra.
Qed.

Lemma sort_reverse_sorted_id (l : list A) :
  StronglySorted (fun a b => key b <= key a) l -> sort_reverse key l = l.
Proof.
  induction 1 as [|x l Hs IH Hx]; [reflexivity|].
  cbn [sort_reverse fold_right]. fold (sort_reverse key l).
  rewrite IH. apply insert_desc_head, Hx.
Qed.
End SortReverseFacts.

(** ** aggregate_risks *)

Lemma aggregate_risks_In (risks : list RiskItem.t) (threshold : Q) (r : RiskItem.t) :
  In r (aggregate_risks risks threshold) <->
  In r risks /\ threshold <= score_key r.
Proof.
  unfold aggregate_risks.
  split.
  - intro H. apply (Permutation_in r (sort_reverse_perm score_key _)) in H.
    apply filter_In in H. destruct H as [H1 H2].
    split; [exact H1 | apply Qle_bool_iff, H2].
  - intros [H1 H2].
    apply (Permutation_in r (Permutation_sym (sort_reverse_perm score_key _))).
    apply filter_In. split; [exact H1 | apply Qle_bool_iff, H2].
Qed.

(** C5: [aggregate_risks] returns exactly the input risks whose score is at
    least the threshold (as a permutation of the filtered input, and
    member by member), in non-increasing order of score, the risks of any
    one score in their input order. *)
Theorem aggregate_risks_filter_stable_sort
    (risks : list RiskItem.t) (threshold : Q) :
  let kept := filter (fun r => Qle_bool threshold (score_key r)) risks in
  let out := aggregate_risks risks threshold in
  Permutation out kept /\
  (forall r, In r out <-> In r risks /\ threshold <= score_key r) /\
  StronglySorted (fun a b => score_key b <= score_key a) out /\
  (forall q,
     filter (fun r => Qeq_bool (score_key r) q) out =
     filter (fun r => Qeq_bool (score_key r) q) kept).
Proof.
  cbv zeta. split; [|split; [|split]].
  - apply sort_reverse_perm.
  - apply aggregate_risks_In.
  - apply sort_reverse_sorted.
  - intro q. apply sort_reverse_stable.
Qed.

Lemma aggregate_risks_filter_stable_sort_witness :
  In (example_risk "R-3" "Demand Volatility" "MEDIUM" 55 45)
     (aggregate_risks
        [ example_risk "R-1" "Supplier Delays" "MEDIUM" 55 45;
          example_risk "R-2" "Stock Shortages" "HIGH" 72.5 45;
          example_risk "R-3" "Demand Volatility" "MEDIUM" 55 45;
          example_risk "R-4" "External Factors" "LOW" 40 45 ] 50).
Proof.
  destruct (aggregate_risks_filter_stable_sort
              [ example_risk "R-1" "Supplier Delays" "MEDIUM" 55 45;
                example_risk "R-2" "Stock Shortages" "HIGH" 72.5 45;
                example_risk "R-3" "Demand Volatility" "MEDIUM" 55 45;
                example_risk "R-4" "External Factors" "LOW" 40 45 ] 50)
    as (_ & Hin & _ & _).
  apply Hin. split; [cbn; tauto | cbn; lra].
Defined.

(** The two risks of score 55 come out in their input order, behind the
    risk of score 72.5; the risk of score 40 is dropped. *)
Example aggregate_risks_example :
  aggregate_risks
    [ example_risk "R-1" "Supplier Delays" "MEDIUM" 55 45;
      example_risk "R-2" "Stock Shortages" "HIGH" 72.5 45;
      example_risk "R-3" "Demand Volatility" "MEDIUM" 55 45;
      example_risk "R-4" "External Factors" "LOW" 40 45 ] 50 =
    [ example_risk "R-2" "Stock Shortages" "HIGH" 72.5 45;
      example_risk "R-1" "Supplier Delays" "MEDIUM" 55 45;
      example_risk "R-3" "Demand Volatility" "MEDIUM" 55 45 ].
Proof. reflexivity. Qed.

(** Re-aggregating with the same threshold changes nothing. *)
Lemma aggregate_risks_idempotent (risks : list RiskItem.t) (threshold : Q) :
  aggregate_risks (aggregate_risks risks threshold) threshold =
  aggregate_risks risks threshold.
Proof.
  set (out := aggregate_risks risks threshold).
  unfold aggregate_risks at 1.
  assert (Hall : filter (fun r => Qle_bool threshold (get_or (RiskItem.risk_score r) 0))
                   out = out).
  { apply forallb_filter_id. apply forallb_forall. intros r Hr.
    apply aggregate_risks_In in Hr. apply Qle_bool_iff, Hr. }
  rewrite Hall. apply sort_reverse_sorted_id.
  apply (sort_reverse_sorted score_key).
Qed.

(** C6: raising the threshold can only remove risks: every risk returned
    for the higher threshold is returned for the lower one. *)
Theorem aggregate_risks_threshold_subset
    (risks : list RiskItem.t) (T1 T2 : Q) (r : RiskItem.t) :
  T2 < T1 ->
  In r (aggregate_risks risks T1) ->
  In r (aggregate_risks risks T2).
Proof.
  intros HT H. apply aggregate_risks_In in H. apply aggregate_risks_In.
  split; [apply H|]. destruct H as [_ H]. lra.
Qed.

Lemma aggregate_risks_threshold_subset_witness :
  In (example_risk "R-2" "Stock Shortages" "HIGH" 72.5 45)
     (aggregate_risks
        [ example_risk "R-1" "Supplier Delays" "MEDIUM" 55 45;
          example_risk "R-2" "Stock Shortages" "HIGH" 72.5 45 ] 50).
Proof.
  apply (aggregate_risks_threshold_subset _ 70 50).
  - lra.
  - vm_compute. left. reflexivity.
Defined.

(** ** generate_recommendations *)

Lemma recommend_risk_bucket (recs : Recommendations.t) (risk : RiskItem.t) :
  recommend_risk recs risk =
  {| Recommendations.immediate_actions :=
       Recommendations.immediate_actions recs ++
       spec_bucket_records Immediate [risk];
     Recommendations.short_term_actions :=
       Recommendations.short_term_actions recs ++
       spec_bucket_records ShortTerm [risk];
     Recommendations.long_term_actions :=
       Recommendations.long_term_actions recs ++
       spec_bucket_records LongTerm [risk] |}.
Proof.
  destruct (String.eqb (get_or (RiskItem.priority risk) "MEDIUM") "CRITICAL") eqn:E1;
  destruct (get_or (RiskItem.timeline_days risk) 30 <=? 7)%Z eqn:E2;
  destruct (String.eqb (get_or (RiskItem.priority risk) "MEDIUM") "HIGH") eqn:E3;
  destruct (get_or (RiskItem.timeline_days risk) 30 <=? 21)%Z eqn:E4;
  unfold recommend_risk, spec_bucket_records, spec_recommendation,
    risk_bucket, spec_bucket;
  cbv beta zeta; cbn [filter];
  rewrite ?E1, ?E2, ?E3, ?E4; cbn [orb bucket_eqb map];
  rewrite ?E1, ?E2, ?E3, ?E4, ?app_nil_r; reflexivity.
Qed.

Lemma spec_bucket_records_cons (b : bucket) (risk : RiskItem.t)
    (risks : list RiskItem.t) :
  spec_bucket_records b (risk :: risks) =
  (spec_bucket_records b [risk] ++ spec_bucket_records b risks)%list.
Proof.
  unfold spec_bucket_records. cbn [filter].
  destruct (bucket_eqb (risk_bucket risk) b); reflexivity.
Qed.

Lemma fold_recommend_risk (risks : list RiskItem.t) (recs : Recommendations.t) :
  fold_left recommend_risk risks recs =
  {| Recommendations.immediate_actions :=
       Recommendations.immediate_actions recs ++
       spec_bucket_records Immediate risks;
     Recommendations.short_term_actions :=
       Recommendations.short_term_actions recs ++
       spec_bucket_records ShortTerm risks;
     Recommendations.long_term_actions :=
       Recommendations.long_term_actions recs ++
       spec_bucket_records LongTerm risks |}.
Proof.
  revert recs. induction risks as [|risk risks IH]; intro recs.
  - destruct recs. cbn. now rewrite !app_nil_r.
  - cbn [fold_left]. rewrite IH, recommend_risk_bucket.
    cbn [Recommendations.immediate_actions Recommendations.short_term_actions
         Recommendations.long_term_actions].
    rewrite !(spec_bucket_records_cons _ risk risks), !app_assoc.
    reflexivity.
Qed.

Lemma collect_recommendations_buckets (risks : list RiskItem.t) :
  collect_recommendations risks =
  {| Recommendations.immediate_actions := spec_bucket_records Immediate risks;
     Recommendations.short_term_actions := spec_bucket_records ShortTerm risks;
     Recommendations.long_term_actions := spec_bucket_records LongTerm risks |}.
Proof. unfold collect_recommendations. now rewrite fold_recommend_risk. Qed.

Lemma bucket_records_total (risks : list RiskItem.t) :
  (length (spec_bucket_records Immediate risks) +
   length (spec_bucket_records ShortTerm risks) +
   length (spec_bucket_records LongTerm risks) = length risks)%nat.
Proof.
  unfold spec_bucket_records. rewrite !length_map.
  induction risks as [|risk risks IH]; [reflexivity|].
  cbn [filter]. destruct (risk_bucket risk); cbn; lia.
Qed.

Lemma spec_bucket_immediate (priority : string) (timeline : Z) :
  spec_bucket priority timeline = Immediate <->
  priority = "CRITICAL" \/ (timeline <= 7)%Z.
Proof.
  unfold spec_bucket.
  destruct (String.eqb_spec priority "CRITICAL") as [E|NE]; [tauto|].
  destruct (Z.leb_spec timeline 7); [tauto|].
  destruct (String.eqb priority "HIGH"), (timeline <=? 21)%Z;
    (split; [discriminate | intros [H'|H']; [contradiction | lia]]).
Qed.

(** C8: the loop puts one record per risk into exactly one of the three
    lists, chosen by the gates (CRITICAL or at most 7 days: immediate;
    otherwise HIGH or at most 21 days: short term; otherwise long term), in
    input order; each list is then cut to its first five records, so none
    is longer than five.  A CRITICAL risk 30 days out and a LOW risk 5 days
    out are both immediate. *)
Theorem generate_recommendations_buckets (risks : list RiskItem.t) :
  let collected := collect_recommendations risks in
  let recs := generate_recommendations risks in
  (Recommendations.immediate_actions collected = spec_bucket_records Immediate risks /\
   Recommendations.short_term_actions collected = spec_bucket_records ShortTerm risks /\
   Recommendations.long_term_actions collected = spec_bucket_records LongTerm risks) /\
  (length (Recommendations.immediate_actions collected) +
   length (Recommendations.short_term_actions collected) +
   length (Recommendations.long_term_actions collected) = length risks)%nat /\
  (Recommendations.immediate_actions recs =
     firstn 5 (spec_bucket_records Immediate risks) /\
   Recommendations.short_term_actions recs =
     firstn 5 (spec_bucket_records ShortTerm risks) /\
   Recommendations.long_term_actions recs =
     firstn 5 (spec_bucket_records LongTerm risks)) /\
  (length (Recommendations.immediate_actions recs) <= 5 /\
   length (Recommendations.short_term_actions recs) <= 5 /\
   length (Recommendations.long_term_actions recs) <= 5)%nat /\
  (forall priority timeline,
     spec_bucket priority timeline = Immediate <->
     priority = "CRITICAL" \/ (timeline <= 7)%Z) /\
  spec_bucket "CRITICAL" 30 = Immediate /\
  spec_bucket "LOW" 5 = Immediate.
Proof.
  cbv zeta. unfold generate_recommendations.
  rewrite collect_recommendations_buckets.
  cbn [Recommendations.immediate_actions Recommendations.short_term_actions
       Recommendations.long_term_actions].
  split; [repeat split|].
  split; [apply bucket_records_total|].
  split; [repeat split|].
  split; [repeat split; apply firstn_le_length|].
  split; [apply spec_bucket_immediate|].
  split; reflexivity.
Qed.

Lemma generate_recommendations_buckets_witness :
  (length (Recommendations.immediate_actions
             (generate_recommendations
                (repeat (example_risk "R-1" "Supplier Delays" "CRITICAL" 95 30) 7)))
   <= 5)%nat.
Proof.
  destruct (generate_recommendations_buckets
              (repeat (example_risk "R-1" "Supplier Delays" "CRITICAL" 95 30) 7))
    as (_ & _ & _ & (Hlen & _ & _) & _).
  exact Hlen.
Defined.

(** Seven CRITICAL risks: all seven are collected as immediate, five are
    kept. *)
Example generate_recommendations_truncates :
  length (Recommendations.immediate_actions
            (collect_recommendations
               (repeat (example_risk "R-1" "Supplier Delays" "CRITICAL" 95 30) 7)))
  = 7%nat /\
  length (Recommendations.immediate_actions
            (generate_recommendations
               (repeat (example_risk "R-1" "Supplier Delays" "CRITICAL" 95 30) 7)))
  = 5%nat.
Proof. split; reflexivity. Qed.

(** A CRITICAL risk 30 days out and a LOW risk 5 days out both land in
    [immediate_actions]; a HIGH risk 30 days out is short term and a MEDIUM
    risk 30 days out long term. *)
Example generate_recommendations_example :
  generate_recommendations
    [ example_risk "R-1" "Supplier Delays" "CRITICAL" 95 30;
      example_risk "R-2" "Stock Shortages" "LOW" 20 5;
      example_risk "R-3" "Production Delays" "HIGH" 75 30;
      example_risk "R-4" "Demand Volatility" "MEDIUM" 55 30 ] =
  {| Recommendations.immediate_actions :=
       [ {| ActionRecommendation.action :=
              "Address Supplier Delays: Production Delays";
            ActionRecommendation.priority := "CRITICAL";
            ActionRecommendation.related_risks := [Some "R-1"] |};
         {| ActionRecommendation.action :=
              "Address Stock Shortages: Production Delays";
            ActionRecommendation.priority := "LOW";
            ActionRecommendation.related_risks := [Some "R-2"] |} ];
     Recommendations.short_term_actions :=
       [ {| ActionRecommendation.action := "Monitor and plan for Production Delays";
            ActionRecommendation.priority := "HIGH";
            ActionRecommendation.related_risks := [Some "R-3"] |} ];
     Recommendations.long_term_actions :=
       [ {| ActionRecommendation.action :=
              "Prepare contingency for Demand Volatility";
            ActionRecommendation.priority := "MEDIUM";
            ActionRecommendation.related_risks := [Some "R-4"] |} ] |}.
Proof. reflexivity. Qed.

(** ** The fallback mitigations *)

Lemma fallback_costs_scaled (risk : RiskItem.t) :
  map MitigationStrategy.estimated_cost (_generate_fallback_mitigations risk) =
  map (fun base =>
         base * priority_cost_multiplier (get_or (RiskItem.priority risk) "MEDIUM"))
      (spec_base_costs (get_or (RiskItem.category risk) "")).
Proof.
  unfold _generate_fallback_mitigations, spec_base_costs.
  destruct (contains "Supplier" _); [reflexivity|].
  destruct (contains "Production" _); [reflexivity|].
  destruct (contains "Stock" _ || contains "Inventory" _); [reflexivity|].
  destruct (contains "Transportation" _); reflexivity.
Qed.

Lemma fallback_length (risk : RiskItem.t) :
  (2 <= length (_generate_fallback_mitigations risk) <= 3)%nat.
Proof.
  unfold _generate_fallback_mitigations.
  destruct (contains "Supplier" _); [cbn; lia|].
  destruct (contains "Production" _); [cbn; lia|].
  destruct (contains "Stock" _ || contains "Inventory" _); [cbn; lia|].
  destruct (contains "Transportation" _); cbn; lia.
Qed.

(** C9: the fallback generator depends on nothing but the category and the
    priority of the risk: two risks that agree on both get identical
    strategy lists.  The cost column is the fixed base cost of the bucket
    times the priority multiplier (CRITICAL 2.0, HIGH 1.5, MEDIUM 1.0,
    LOW 0.5), and a list has two or three strategies. *)
Theorem fallback_mitigations_deterministic (r1 r2 : RiskItem.t) :
  RiskItem.category r1 = RiskItem.category r2 ->
  RiskItem.priority r1 = RiskItem.priority r2 ->
  _generate_fallback_mitigations r1 = _generate_fallback_mitigations r2 /\
  map MitigationStrategy.estimated_cost (_generate_fallback_mitigations r1) =
    map (fun base =>
           base * priority_cost_multiplier (get_or (RiskItem.priority r1) "MEDIUM"))
        (spec_base_costs (get_or (RiskItem.category r1) "")) /\
  (priority_cost_multiplier "CRITICAL" = 2.0 /\
   priority_cost_multiplier "HIGH" = 1.5 /\
   priority_cost_multiplier "MEDIUM" = 1.0 /\
   priority_cost_multiplier "LOW" = 0.5) /\
  (2 <= length (_generate_fallback_mitigations r1) <= 3)%nat.
Proof.
  intros Hcat Hprio.
  split; [|split; [apply fallback_costs_scaled|split; [|apply fallback_length]]].
  - unfold _generate_fallback_mitigations. now rewrite Hcat, Hprio.
  - repeat split.
Qed.

Lemma fallback_mitigations_deterministic_witness :
  _generate_fallback_mitigations
    (example_risk "R-1" "Supplier Delays" "CRITICAL" 95 30) =
  _generate_fallback_mitigations
    (example_risk "R-7" "Supplier Delays" "CRITICAL" 91.5 45).
Proof.
  apply (fallback_mitigations_deterministic
           (example_risk "R-1" "Supplier Delays" "CRITICAL" 95 30)
           (example_risk "R-7" "Supplier Delays" "CRITICAL" 91.5 45));
    reflexivity.
Defined.

(** * Further properties of the pipeline *)

(** ** The stable reverse sort and filters *)

Section SortReverseFilter.
Context {A : Type} (key : A -> Q).

(** On a list in non-increasing order, filtering commutes with insertion. *)
Lemma filter_insert_desc (p : A -> bool) (x : A) (l : list A) :
  StronglySorted (fun a b => key b <= key a) l ->
  filter p (insert_desc key x l) =
  if p x then insert_desc key x (filter p l) else filter p l.
Proof.
  induction 1 as [|y l Hs IH Hy]; cbn [insert_desc filter].
  - destruct (p x); reflexivity.
  - destruct (Qlt_bool (key x) (key y)) eqn:E.
    + cbn [filter]. rewrite IH.
      destruct (p x), (p y); cbn [insert_desc]; rewrite ?E; reflexivity.
    + apply Qlt_bool_false_iff in E. cbn [filter].
      destruct (p x); [|reflexivity].
      symmetry. apply insert_desc_head.
      destruct (p y).
      * constructor; [exact E|].
        apply Forall_forall. intros z Hz. apply filter_In in Hz.
        rewrite Forall_forall in Hy. specialize (Hy z (proj1 Hz)).
        cbn in Hy. lra.
      * apply Forall_forall. intros z Hz. apply filter_In in Hz.
        rewrite Forall_forall in Hy. specialize (Hy z (proj1 Hz)).
        cbn in Hy. lra.
Qed.

Lemma filter_sort_reverse (p : A -> bool) (l : list A) :
  filter p (sort_reverse key l) = sort_reverse key (filter p l).
Proof.
  induction l as [|x l IH]; [reflexivity|].
  cbn [sort_reverse fold_right filter]. fold (sort_reverse key l).
  rewrite filter_insert_desc by apply sort_reverse_sorted.
  rewrite IH. destruct (p x); reflexivity.
Qed.

(** A list in non-increasing order is its part at or above a bound followed
    by its part below the bound. *)
Lemma sorted_split_at (bound : Q) (l : list A) :
  StronglySorted (fun a b => key b <= key a) l ->
  l = (filter (fun a => Qle_bool bound (key a)) l ++
       filter (fun a => negb (Qle_bool bound (key a))) l)%list.
Proof.
  induction 1 as [|x l Hs IH Hx]; [reflexivity|].
  cbn [filter]. destruct (Qle_bool bound (key x)) eqn:E; cbn [negb].
  - cbn [app]. now rewrite <- IH.
  - apply Qle_bool_false_iff in E.
    assert (Hnone : filter (fun a => Qle_bool bound (key a)) l = []).
    { clear IH Hs. induction l as [|y l IHl]; [reflexivity|].
      inversion_clear Hx as [|? ? Hy Hl]. cbn [filter].
      destruct (Qle_bool bound (key y)) eqn:Ey; [|now apply IHl].
      apply Qle_bool_iff in Ey. lra. }
    rewrite Hnone. cbn [app]. f_equal.
    rewrite Hnone in IH. exact IH.
Qed.

(** In a list in non-increasing order no element behind position [n] has a
    larger key than an element in front of it. *)
Lemma sorted_firstn_skipn (n : nat) (l : list A) (a b : A) :
  StronglySorted (fun a b => key b <= key a) l ->
  In a (firstn n l) -> In b (skipn n l) -> key b <= key a.
Proof.
  intros Hs. revert n. induction Hs as [|x l Hs IH Hx]; intros n Ha Hb.
  - destruct n; contradiction.
  - destruct n as [|n]; [contradiction|].
    cbn [firstn skipn] in Ha, Hb. destruct Ha as [<- | Ha].
    + rewrite Forall_forall in Hx. apply Hx.
      rewrite <- (firstn_skipn n l). apply in_or_app. right. exact Hb.
    + exact (IH n Ha Hb).
Qed.
End SortReverseFilter.

(** ** aggregate_risks under a change of threshold *)

Lemma filter_threshold_nested (T1 T2 : Q) (risks : list RiskItem.t) :
  T2 <= T1 ->
  filter (fun r => Qle_bool T1 (get_or (RiskItem.risk_score r) 0))
    (filter (fun r => Qle_bool T2 (get_or (RiskItem.risk_score r) 0)) risks) =
  filter (fun r => Qle_bool T1 (get_or (RiskItem.risk_score r) 0)) risks.
Proof.
  intro HT. induction risks as [|r risks IH]; [reflexivity|].
  cbn [filter].
  destruct (Qle_bool T1 (get_or (RiskItem.risk_score r) 0)) eqn:E1;
    destruct (Qle_bool T2 (get_or (RiskItem.risk_score r) 0)) eqn:E2;
    cbn [filter]; rewrite ?E1, ?IH; try reflexivity.
  apply Qle_bool_iff in E1. apply Qle_bool_false_iff in E2. lra.
Qed.

Lemma aggregate_risks_refilter (risks : list RiskItem.t) (T1 T2 : Q) :
  T2 <= T1 ->
  filter (fun r => Qle_bool T1 (score_key r)) (aggregate_risks risks T2) =
  aggregate_risks risks T1.
Proof.
  intro HT. unfold aggregate_risks.
  rewrite (filter_sort_reverse score_key).
  unfold score_key at 2.
  now rewrite filter_threshold_nested.
Qed.

(** X1: aggregating in two steps, first with a threshold and then with a
    threshold at least as high, gives the list of aggregating once with the
    higher threshold; in particular re-aggregating with the same threshold
    changes nothing. *)
Theorem aggregate_risks_compose (risks : list RiskItem.t) (T1 T2 : Q) :
  T2 <= T1 ->
  aggregate_risks (aggregate_risks risks T2) T1 = aggregate_risks risks T1.
Proof.
  intro HT.
  unfold aggregate_risks at 1.
  change (filter (fun r => Qle_bool T1 (get_or (RiskItem.risk_score r) 0))
            (aggregate_risks risks T2))
    with (filter (fun r => Qle_bool T1 (score_key r)) (aggregate_risks risks T2)).
  rewrite (aggregate_risks_refilter risks T1 T2 HT).
  apply sort_reverse_sorted_id. apply (sort_reverse_sorted score_key).
Qed.

Lemma aggregate_risks_compose_witness :
  aggregate_risks
    (aggregate_risks
       [ example_risk "R-1" "Supplier Delays" "MEDIUM" 55 45;
         example_risk "R-2" "Stock Shortages" "HIGH" 72.5 45;
         example_risk "R-3" "External Factors" "LOW" 40 45 ] 50) 70 =
  aggregate_risks
    [ example_risk "R-1" "Supplier Delays" "MEDIUM" 55 45;
      example_risk "R-2" "Stock Shortages" "HIGH" 72.5 45;
      example_risk "R-3" "External Factors" "LOW" 40 45 ] 70.
Proof. apply aggregate_risks_compose. lra. Defined.

(** X2: raising the threshold only cuts the ranked list at its tail: the
    list for the higher threshold is a prefix of the list for the lower
    one, and every risk cut off scores below the higher threshold. *)
Theorem aggregate_risks_prefix (risks : list RiskItem.t) (T1 T2 : Q) :
  T2 <= T1 ->
  exists rest,
    aggregate_risks risks T2 = (aggregate_risks risks T1 ++ rest)%list /\
    Forall (fun r => score_key r < T1) rest.
Proof.
  intro HT.
  exists (filter (fun r => negb (Qle_bool T1 (score_key r)))
            (aggregate_risks risks T2)).
  split.
  - rewrite <- (aggregate_risks_refilter risks T1 T2 HT) at 1.
    apply (sorted_split_at score_key T1).
    apply (sort_reverse_sorted score_key).
  - apply Forall_forall. intros r Hr. apply filter_In in Hr.
    destruct Hr as [_ Hr]. apply negb_true_iff in Hr.
    apply Qle_bool_false_iff, Hr.
Qed.

Lemma aggregate_risks_prefix_witness :
  exists rest,
    aggregate_risks
      [ example_risk "R-1" "Supplier Delays" "MEDIUM" 55 45;
        example_risk "R-2" "Stock Shortages" "HIGH" 72.5 45 ] 50 =
    (aggregate_risks
       [ example_risk "R-1" "Supplier Delays" "MEDIUM" 55 45;
         example_risk "R-2" "Stock Shortages" "HIGH" 72.5 45 ] 70 ++ rest)%list /\
    Forall (fun r => score_key r < 70) rest.
Proof. apply aggregate_risks_prefix. lra. Defined.

(** X3: the ranked list puts the highest scores first: no risk behind
    position [n] scores higher than a risk among the first [n]. *)
Theorem aggregate_risks_top (risks : list RiskItem.t) (threshold : Q)
    (n : nat) (a b : RiskItem.t) :
  In a (firstn n (aggregate_risks risks threshold)) ->
  In b (skipn n (aggregate_risks risks threshold)) ->
  score_key b <= score_key a.
Proof.
  apply (sorted_firstn_skipn score_key).
  apply (sort_reverse_sorted score_key).
Qed.

Lemma aggregate_risks_top_witness :
  score_key (example_risk "R-1" "Supplier Delays" "MEDIUM" 55 45) <=
  score_key (example_risk "R-2" "Stock Shortages" "HIGH" 72.5 45).
Proof.
  apply (aggregate_risks_top
           [ example_risk "R-1" "Supplier Delays" "MEDIUM" 55 45;
             example_risk "R-2" "Stock Shortages" "HIGH" 72.5 45 ] 50 1).
  - vm_compute. left. reflexivity.
  - vm_compute. left. reflexivity.
Defined.

(** ** generate_summary *)

Lemma Permutation_filter_same {A : Type} (f : A -> bool) (l l' : list A) :
  Permutation l l' -> Permutation (filter f l) (filter f l').
Proof.
  induction 1 as [|x l l' _ IH|x y l|l l' l'' _ IH1 _ IH2]; cbn [filter].
  - constructor.
  - destruct (f x); [now constructor | exact IH].
  - destruct (f x), (f y); try reflexivity. apply perm_swap.
  - now transitivity (filter f l').
Qed.

Lemma set_update_spec (s l : list string) :
  (NoDup s -> NoDup (set_update s l)) /\
  (forall x, In x (set_update s l) <-> In x s \/ In x l).
Proof.
  unfold set_update. revert s.
  induction l as [|y l IH]; intro s; cbn [fold_left].
  - split; [auto|]. intro x. cbn. tauto.
  - destruct (IH (set_add string_dec y s)) as [IHn IHi]. split.
    + intro Hs. apply IHn. now apply set_add_nodup.
    + intro x. rewrite IHi, set_add_iff. cbn. intuition auto.
Qed.

Lemma fold_set_update_spec (lists : list (list string)) (s : list string) :
  (NoDup s -> NoDup (fold_left set_update lists s)) /\
  (forall x, In x (fold_left set_update lists s) <->
             In x s \/ In x (concat lists)).
Proof.
  revert s. induction lists as [|l lists IH]; intro s; cbn [fold_left concat].
  - split; [auto|]. intro x. cbn. tauto.
  - destruct (IH (set_update s l)) as [IHn IHi].
    destruct (set_update_spec s l) as [Un Ui]. split.
    + intro Hs. apply IHn, Un, Hs.
    + intro x. rewrite IHi, Ui, in_app_iff. tauto.
Qed.

Lemma fold_collect_spec (risks : list RiskItem.t) (s : list string) :
  (NoDup s ->
   NoDup (fold_left (fun all_entities risk =>
                       fold_left set_update (entity_lists risk) all_entities)
            risks s)) /\
  (forall x,
     In x (fold_left (fun all_entities risk =>
                        fold_left set_update (entity_lists risk) all_entities)
             risks s) <->
     In x s \/ In x (listed_entities risks)).
Proof.
  unfold listed_entities. revert s.
  induction risks as [|r risks IH]; intro s; cbn [fold_left map concat].
  - split; [auto|]. intro x. cbn. tauto.
  - destruct (IH (fold_left set_update (entity_lists r) s)) as [IHn IHi].
    destruct (fold_set_update_spec (entity_lists r) s) as [Un Ui]. split.
    + intro Hs. apply IHn, Un, Hs.
    + intro x. rewrite IHi, Ui, in_app_iff. tauto.
Qed.

Lemma collect_entities_NoDup (risks : list RiskItem.t) :
  NoDup (collect_entities risks).
Proof. apply fold_collect_spec. constructor. Qed.

Lemma collect_entities_In (risks : list RiskItem.t) (x : string) :
  In x (collect_entities risks) <-> In x (listed_entities risks).
Proof.
  unfold collect_entities.
  destruct (fold_collect_spec risks []) as [_ H]. rewrite H. cbn. tauto.
Qed.

(** X4: [total_entities_affected] is the number of distinct identifier
    strings named by the risks: an identifier is counted once however many
    risks and however many of the six slots name it (so a supplier and a
    warehouse with the same identifier count as one entity), and the count
    never exceeds the number of identifiers listed. *)
Theorem summary_counts_distinct_entities (risks : list RiskItem.t) :
  AnalysisSummary.total_entities_affected (generate_summary risks) =
    length (nodup string_dec (listed_entities risks)) /\
  (AnalysisSummary.total_entities_affected (generate_summary risks)
   <= length (listed_entities risks))%nat.
Proof.
  cbn [generate_summary AnalysisSummary.total_entities_affected].
  assert (P : Permutation (collect_entities risks)
                (nodup string_dec (listed_entities risks))).
  { apply NoDup_Permutation.
    - apply collect_entities_NoDup.
    - apply NoDup_nodup.
    - intro x. rewrite collect_entities_In, nodup_In. tauto. }
  split.
  - apply Permutation_length, P.
  - rewrite (Permutation_length P).
    apply NoDup_incl_length; [apply NoDup_nodup|].
    intros x Hx. apply nodup_In in Hx. exact Hx.
Qed.

Lemma count_priority_labelled (risks : list RiskItem.t) :
  (count_priority "CRITICAL" risks + count_priority "HIGH" risks +
   count_priority "MEDIUM" risks + count_priority "LOW" risks =
   length (filter labelled risks))%nat.
Proof.
  unfold count_priority, labelled, priority_is.
  induction risks as [|r risks IH]; [reflexivity|].
  cbn [filter].
  destruct (RiskItem.priority r) as [p|]; [|cbn; exact IH].
  destruct (String.eqb_spec p "CRITICAL") as [->|]; [cbn in *; lia|].
  destruct (String.eqb_spec p "HIGH") as [->|]; [cbn in *; lia|].
  destruct (String.eqb_spec p "MEDIUM") as [->|]; [cbn in *; lia|].
  destruct (String.eqb_spec p "LOW") as [->|]; cbn in *; lia.
Qed.

(** X5: the four priority counts of the summary never add up to more than
    [total_risks]; they add up to the number of risks whose priority is one
    of the four labels, so a risk with a missing or unknown priority is
    counted in the total and in no bucket. *)
Theorem summary_priority_counts (risks : list RiskItem.t) :
  let s := generate_summary risks in
  AnalysisSummary.total_risks s = length risks /\
  (AnalysisSummary.critical_risks s + AnalysisSummary.high_risks s +
   AnalysisSummary.medium_risks s + AnalysisSummary.low_risks s =
   length (filter labelled risks))%nat /\
  (AnalysisSummary.critical_risks s + AnalysisSummary.high_risks s +
   AnalysisSummary.medium_risks s + AnalysisSummary.low_risks s
   <= AnalysisSummary.total_risks s)%nat /\
  (forallb labelled risks = true ->
   (AnalysisSummary.critical_risks s + AnalysisSummary.high_risks s +
    AnalysisSummary.medium_risks s + AnalysisSummary.low_risks s
    = AnalysisSummary.total_risks s)%nat).
Proof.
  cbv zeta.
  cbn [generate_summary AnalysisSummary.total_risks
       AnalysisSummary.critical_risks AnalysisSummary.high_risks
       AnalysisSummary.medium_risks AnalysisSummary.low_risks].
  rewrite count_priority_labelled.
  split; [reflexivity|]. split; [reflexivity|].
  split; [apply filter_length_le|].
  intro Hall. now rewrite forallb_filter_id.
Qed.

Lemma summary_priority_counts_witness :
  (AnalysisSummary.critical_risks
     (generate_summary
        [ example_risk "R-1" "Supplier Delays" "CRITICAL" 95 45;
          example_risk "R-2" "Stock Shortages" "HIGH" 72.5 45 ]) +
   AnalysisSummary.high_risks
     (generate_summary
        [ example_risk "R-1" "Supplier Delays" "CRITICAL" 95 45;
          example_risk "R-2" "Stock Shortages" "HIGH" 72.5 45 ]) +
   AnalysisSummary.medium_risks
     (generate_summary
        [ example_risk "R-1" "Supplier Delays" "CRITICAL" 95 45;
          example_risk "R-2" "Stock Shortages" "HIGH" 72.5 45 ]) +
   AnalysisSummary.low_risks
     (generate_summary
        [ example_risk "R-1" "Supplier Delays" "CRITICAL" 95 45;
          example_risk "R-2" "Stock Shortages" "HIGH" 72.5 45 ]) =
   AnalysisSummary.total_risks
     (generate_summary
        [ example_risk "R-1" "Supplier Delays" "CRITICAL" 95 45;
          example_risk "R-2" "Stock Shortages" "HIGH" 72.5 45 ]))%nat.
Proof.
  apply (summary_priority_counts
           [ example_risk "R-1" "Supplier Delays" "CRITICAL" 95 45;
             example_risk "R-2" "Stock Shortages" "HIGH" 72.5 45 ]).
  reflexivity.
Defined.

Lemma listed_entities_perm (risks risks' : list RiskItem.t) :
  Permutation risks risks' ->
  Permutation (listed_entities risks) (listed_entities risks').
Proof.
  unfold listed_entities.
  induction 1 as [|x l l' _ IH|x y l|l l' l'' _ IH1 _ IH2]; cbn [map concat].
  - constructor.
  - now apply Permutation_app_head.
  - rewrite !app_assoc. apply Permutation_app_tail, Permutation_app_comm.
  - now transitivity (concat (map (fun risk => concat (entity_lists risk)) l')).
Qed.

(** X6: the summary does not depend on the order of the risks; so the
    summary of the ranked list returned by [aggregate_risks] is the summary
    of the risks that pass the threshold, in whatever order. *)
Theorem summary_order_independent (risks risks' : list RiskItem.t) :
  Permutation risks risks' ->
  generate_summary risks = generate_summary risks'.
Proof.
  intro P. unfold generate_summary, count_priority.
  rewrite (Permutation_length P).
  rewrite !(Permutation_length (Permutation_filter_same _ _ _ P)).
  f_equal.
  apply Permutation_length, NoDup_Permutation;
    try apply collect_entities_NoDup.
  intro x. rewrite !collect_entities_In.
  split; apply Permutation_in; [|symmetry]; apply listed_entities_perm, P.
Qed.

Lemma summary_order_independent_witness :
  generate_summary
    (aggregate_risks
       [ example_risk "R-1" "Supplier Delays" "MEDIUM" 55 45;
         example_risk "R-2" "Stock Shortages" "HIGH" 72.5 45 ] 50) =
  generate_summary
    (filter (fun r => Qle_bool 50 (score_key r))
       [ example_risk "R-1" "Supplier Delays" "MEDIUM" 55 45;
         example_risk "R-2" "Stock Shortages" "HIGH" 72.5 45 ]).
Proof.
  apply summary_order_independent.
  apply (sort_reverse_perm score_key).
Defined.

(** ** generate_recommendations within the forecast horizon *)

Lemma bucket_by_priority (r : RiskItem.t) :
  (21 < get_or (RiskItem.timeline_days r) 30)%Z ->
  bucket_eqb (risk_bucket r) Immediate = priority_is "CRITICAL" r /\
  bucket_eqb (risk_bucket r) ShortTerm = priority_is "HIGH" r /\
  bucket_eqb (risk_bucket r) LongTerm =
    negb (priority_is "CRITICAL" r || priority_is "HIGH" r).
Proof.
  intro Ht. unfold risk_bucket, spec_bucket, priority_is.
  destruct (Z.leb_spec (get_or (RiskItem.timeline_days r) 30%Z) 7); [lia|].
  destruct (Z.leb_spec (get_or (RiskItem.timeline_days r) 30%Z) 21); [lia|].
  destruct (RiskItem.priority r) as [p|]; cbn [get_or].
  - destruct (String.eqb_spec p "CRITICAL") as [->|]; [repeat split|].
    destruct (String.eqb p "HIGH"); repeat split.
  - repeat split.
Qed.

(** X7: when every risk lies more than 21 days out (the orchestrator
    passes the forecast horizon, 30 to 60 days, as the timeline of every
    risk) the timeline gates never fire and the bucket is decided by the
    priority alone: CRITICAL risks are immediate, HIGH risks short term,
    and all others, a missing priority included, long term. *)
Theorem recommendations_by_priority (risks : list RiskItem.t) :
  Forall (fun r => (21 < get_or (RiskItem.timeline_days r) 30)%Z) risks ->
  let recs := generate_recommendations risks in
  Recommendations.immediate_actions recs =
    firstn 5 (map spec_recommendation (filter (priority_is "CRITICAL") risks)) /\
  Recommendations.short_term_actions recs =
    firstn 5 (map spec_recommendation (filter (priority_is "HIGH") risks)) /\
  Recommendations.long_term_actions recs =
    firstn 5 (map spec_recommendation
                (filter (fun r => negb (priority_is "CRITICAL" r ||
                                        priority_is "HIGH" r)) risks)).
Proof.
  intro Hall. cbv zeta. unfold generate_recommendations.
  rewrite collect_recommendations_buckets.
  cbn [Recommendations.immediate_actions Recommendations.short_term_actions
       Recommendations.long_term_actions].
  unfold spec_bucket_records.
  rewrite Forall_forall in Hall.
  repeat split; do 2 f_equal; apply filter_ext_in; intros r Hr;
    apply (bucket_by_priority r (Hall r Hr)).
Qed.

Lemma recommendations_by_priority_witness :
  Recommendations.long_term_actions
    (generate_recommendations
       [ example_risk "R-1" "Demand Volatility" "MEDIUM" 55 45;
         example_risk "R-2" "Stock Shortages" "HIGH" 72.5 45 ]) =
  firstn 5 (map spec_recommendation
              (filter (fun r => negb (priority_is "CRITICAL" r ||
                                      priority_is "HIGH" r))
                 [ example_risk "R-1" "Demand Volatility" "MEDIUM" 55 45;
                   example_risk "R-2" "Stock Shortages" "HIGH" 72.5 45 ])).
Proof.
  apply (recommendations_by_priority
           [ example_risk "R-1" "Demand Volatility" "MEDIUM" 55 45;
             example_risk "R-2" "Stock Shortages" "HIGH" 72.5 45 ]).
  repeat constructor.
Defined.

Lemma bucket_records_trace (b : bucket) (risks : list RiskItem.t)
    (rec : ActionRecommendation.t) :
  In rec (firstn 5 (spec_bucket_records b risks)) ->
  exists risk, In risk risks /\
    ActionRecommendation.related_risks rec = [RiskItem.risk_id risk] /\
    ActionRecommendation.priority rec = get_or (RiskItem.priority risk) "MEDIUM".
Proof.
  intro H.
  assert (H' : In rec (spec_bucket_records b risks)).
  { rewrite <- (firstn_skipn 5 (spec_bucket_records b risks)).
    apply in_or_app. now left. }
  unfold spec_bucket_records in H'. apply in_map_iff in H'.
  destruct H' as (risk & <- & Hin). apply filter_In in Hin.
  exists risk. split; [apply Hin|]. split; reflexivity.
Qed.

(** X8: every recommendation returned refers to exactly one input risk,
    whose identifier and priority it carries; at most fifteen
    recommendations are returned, never more than there are risks, and
    with at most five risks every risk gets its recommendation. *)
Theorem recommendations_trace_and_count (risks : list RiskItem.t) :
  let recs := generate_recommendations risks in
  let total :=
    (length (Recommendations.immediate_actions recs) +
     length (Recommendations.short_term_actions recs) +
     length (Recommendations.long_term_actions recs))%nat in
  (forall rec,
     In rec (Recommendations.immediate_actions recs) \/
     In rec (Recommendations.short_term_actions recs) \/
     In rec (Recommendations.long_term_actions recs) ->
     exists risk, In risk risks /\
       ActionRecommendation.related_risks rec = [RiskItem.risk_id risk] /\
       ActionRecommendation.priority rec =
         get_or (RiskItem.priority risk) "MEDIUM") /\
  (total <= 15)%nat /\
  (total <= length risks)%nat /\
  ((length risks <= 5)%nat -> total = length risks).
Proof.
  cbv zeta. unfold generate_recommendations.
  rewrite collect_recommendations_buckets.
  cbn [Recommendations.immediate_actions Recommendations.short_term_actions
       Recommendations.long_term_actions].
  pose proof (bucket_records_total risks) as Htotal.
  pose proof (firstn_le_length 5 (spec_bucket_records Immediate risks)).
  pose proof (firstn_le_length 5 (spec_bucket_records ShortTerm risks)).
  pose proof (firstn_le_length 5 (spec_bucket_records LongTerm risks)).
  rewrite !length_firstn in *.
  split; [|repeat split; lia].
  intros rec [H'|[H'|H']]; eapply bucket_records_trace; exact H'.
Qed.

Lemma recommendations_trace_and_count_witness :
  (length (Recommendations.immediate_actions
             (generate_recommendations
                [ example_risk "R-1" "Supplier Delays" "CRITICAL" 95 45;
                  example_risk "R-2" "Stock Shortages" "HIGH" 72.5 45 ])) +
   length (Recommendations.short_term_actions
             (generate_recommendations
                [ example_risk "R-1" "Supplier Delays" "CRITICAL" 95 45;
                  example_risk "R-2" "Stock Shortages" "HIGH" 72.5 45 ])) +
   length (Recommendations.long_term_actions
             (generate_recommendations
                [ example_risk "R-1" "Supplier Delays" "CRITICAL" 95 45;
                  example_risk "R-2" "Stock Shortages" "HIGH" 72.5 45 ])) =
   length [ example_risk "R-1" "Supplier Delays" "CRITICAL" 95 45;
            example_risk "R-2" "Stock Shortages" "HIGH" 72.5 45 ])%nat.
Proof.
  apply (recommendations_trace_and_count
           [ example_risk "R-1" "Supplier Delays" "CRITICAL" 95 45;
             example_risk "R-2" "Stock Shortages" "HIGH" 72.5 45 ]).
  cbn. lia.
Defined.

(** ** The strategy validator *)

Lemma str_prefix_length (n : nat) (s : string) :
  (String.length (str_prefix n s) <= n)%nat.
Proof.
  unfold str_prefix. revert s.
  induction n as [|n IH]; intro s; destruct s as [|c s]; cbn; try lia.
  specialize (IH s). lia.
Qed.

Lemma str_prefix_short (n : nat) (s : string) :
  (String.length s <= n)%nat -> str_prefix n s = s.
Proof.
  unfold str_prefix. revert s.
  induction n as [|n IH]; intro s; destruct s as [|c s]; cbn; intro H;
    try reflexivity; try lia.
  f_equal. apply IH. lia.
Qed.

Lemma short_strings_clean (items width : nat) (l : list string) :
  short_strings items width (map (str_prefix width) (firstn items l)).
Proof.
  split.
  - rewrite length_map. apply firstn_le_length.
  - apply Forall_forall. intros s Hs. apply in_map_iff in Hs.
    destruct Hs as (s' & <- & _). apply str_prefix_length.
Qed.

Lemma short_strings_fixed (items width : nat) (l : list string) :
  short_strings items width l ->
  map (str_prefix width) (firstn items l) = l.
Proof.
  intros [Hlen Hall]. rewrite firstn_all2 by exact Hlen.
  induction Hall as [|s l Hs _ IH]; [reflexivity|].
  cbn [map]. rewrite (str_prefix_short _ _ Hs). f_equal.
  apply IH. cbn in Hlen. lia.
Qed.

Lemma clean_strategy_within_bounds (strategy : RawStrategy.t)
    (clean : MitigationStrategy.t) :
  clean_strategy strategy = Some clean -> within_bounds clean.
Proof.
  unfold clean_strategy.
  destruct (py_int _) as [timeline|]; [|discriminate].
  destruct (py_float _) as [cost|]; [|discriminate].
  destruct (py_float _) as [reduction|]; [|discriminate].
  intro H.
  apply (f_equal (fun o => match o with Some c => c | None => clean end)) in H.
  cbv beta iota in H. subst clean. unfold within_bounds.
  split; [apply str_prefix_length|].
  split; [apply short_strings_clean|].
  split; [apply Z.le_max_l|].
  split; [cbv [MitigationStrategy.estimated_cost]; minmax; lra|].
  split; [cbv [MitigationStrategy.risk_reduction]; minmax; lra|].
  split; [apply short_strings_clean|].
  split; apply short_strings_clean.
Qed.

Lemma validate_fold (strategies : list RawStrategy.t)
    (validated : list MitigationStrategy.t) :
  fold_left
    (fun (validated : list MitigationStrategy.t) strategy =>
       match clean_strategy strategy with
       | Some clean => (validated ++ [clean])%list
       | None => validated
       end)
    strategies validated =
  (validated ++
   flat_map (fun strategy => match clean_strategy strategy with
                             | Some clean => [clean]
                             | None => []
                             end) strategies)%list.
Proof.
  revert validated.
  induction strategies as [|strategy strategies IH]; intro validated;
    cbn [fold_left flat_map].
  - now rewrite app_nil_r.
  - rewrite IH. destruct (clean_strategy strategy); [|reflexivity].
    now rewrite <- app_assoc.
Qed.

(** X9: whatever the validator is given, every strategy it returns keeps
    the bounds: a name of at most 100 characters, at most 10 action steps
    of at most 500 characters, a timeline of at least one day, a cost that
    is not negative, a risk reduction in [0,100], and at most 5
    dependencies, pros and cons of at most 200 characters each. *)
Theorem validated_strategies_within_bounds (strategies : list RawStrategy.t) :
  Forall within_bounds (_validate_strategies strategies).
Proof.
  unfold _validate_strategies. rewrite validate_fold. cbn [app].
  apply Forall_forall. intros clean Hin. apply in_flat_map in Hin.
  destruct Hin as (strategy & _ & Hin).
  destruct (clean_strategy strategy) as [c|] eqn:E; [|contradiction].
  destruct Hin as [<-|[]]. exact (clean_strategy_within_bounds _ _ E).
Qed.



(** ** Strategies the validator leaves as they are *)

Lemma py_max_0_fixed (c : Q) : c = 0 \/ 0 < c -> py_max 0 c = c.
Proof.
  intros [-> | H]; unfold py_max.
  - reflexivity.
  - apply Qlt_bool_iff in H. now rewrite H.
Qed.

Lemma py_max_0_normal (c : Q) : py_max 0 c = 0 \/ 0 < py_max 0 c.
Proof.
  destruct (py_max_cases 0 c) as [[H ->] | [_ ->]]; [right; exact H | left; reflexivity].
Qed.

Lemma reduction_fixed (r : Q) :
  r = 0 \/ r = 100 \/ 0 < r < 100 -> py_min 100 (py_max 0 r) = r.
Proof.
  intros [-> | [-> | [H0 H100]]]; try reflexivity.
  rewrite (py_max_0_fixed r) by (right; exact H0).
  unfold py_min. apply Qlt_bool_iff in H100. now rewrite H100.
Qed.

Lemma reduction_normal (x : Q) :
  let r := py_min 100 (py_max 0 x) in r = 0 \/ r = 100 \/ 0 < r < 100.
Proof.
  cbv zeta.
  destruct (py_min_cases 100 (py_max 0 x)) as [[H ->] | [H ->]];
    [|right; left; reflexivity].
  destruct (py_max_cases 0 x) as [[H' E] | [_ E]]; rewrite E in *.
  - right. right. split; assumption.
  - left. reflexivity.
Qed.

Lemma clean_as_raw_fixed (s : MitigationStrategy.t) :
  within_bounds s ->
  (MitigationStrategy.estimated_cost s = 0 \/
   0 < MitigationStrategy.estimated_cost s) ->
  (MitigationStrategy.risk_reduction s = 0 \/
   MitigationStrategy.risk_reduction s = 100 \/
   0 < MitigationStrategy.risk_reduction s < 100) ->
  clean_strategy (as_raw s) = Some s.
Proof.
  destruct s as [name steps timeline cost reduction deps pros cons].
  unfold within_bounds.
  cbv [MitigationStrategy.strategy_name MitigationStrategy.action_steps
       MitigationStrategy.timeline_days MitigationStrategy.estimated_cost
       MitigationStrategy.risk_reduction MitigationStrategy.dependencies
       MitigationStrategy.pros MitigationStrategy.cons].
  intros (Hname & Hsteps & Htime & _ & _ & Hdeps & Hpros & Hcons) Hcost Hred.
  unfold clean_strategy, as_raw.
  cbv [RawStrategy.strategy_name RawStrategy.action_steps
       RawStrategy.timeline_days RawStrategy.estimated_cost
       RawStrategy.risk_reduction RawStrategy.dependencies
       RawStrategy.pros RawStrategy.cons
       MitigationStrategy.strategy_name MitigationStrategy.action_steps
       MitigationStrategy.timeline_days MitigationStrategy.estimated_cost
       MitigationStrategy.risk_reduction MitigationStrategy.dependencies
       MitigationStrategy.pros MitigationStrategy.cons
       get_or py_int py_float inject_Z Qnum Qden].
  rewrite Z.quot_1_r, (Z.max_r 1 timeline) by exact Htime.
  rewrite (str_prefix_short _ _ Hname).
  rewrite (short_strings_fixed _ _ _ Hsteps), (short_strings_fixed _ _ _ Hdeps),
    (short_strings_fixed _ _ _ Hpros), (short_strings_fixed _ _ _ Hcons).
  now rewrite (py_max_0_fixed _ Hcost), (reduction_fixed _ Hred).
Qed.

Lemma validate_fixed (l : list MitigationStrategy.t) :
  Forall (fun s => clean_strategy (as_raw s) = Some s) l ->
  _validate_strategies (map as_raw l) = l.
Proof.
  intro H. unfold _validate_strategies. rewrite validate_fold. cbn [app].
  induction H as [|s l Hs _ IH]; [reflexivity|].
  cbn [map flat_map]. rewrite Hs, IH. reflexivity.
Qed.

(** X11: validating is idempotent: strategies that came out of the
    validator, written back as dictionaries and validated again, come out
    unchanged. *)
Theorem validate_idempotent (strategies : list RawStrategy.t) :
  _validate_strategies (map as_raw (_validate_strategies strategies)) =
  _validate_strategies strategies.
Proof.
  apply validate_fixed.
  unfold _validate_strategies. rewrite validate_fold. cbn [app].
  apply Forall_forall. intros clean Hin. apply in_flat_map in Hin.
  destruct Hin as (strategy & _ & Hin).
  destruct (clean_strategy strategy) as [c|] eqn:E; [|contradiction].
  destruct Hin as [<-|[]].
  pose proof (clean_strategy_within_bounds _ _ E) as Hb.
  unfold clean_strategy in E.
  destruct (py_int _) as [timeline|]; [|discriminate].
  destruct (py_float _) as [cost|]; [|discriminate].
  destruct (py_float _) as [reduction|]; [|discriminate].
  apply (f_equal (fun o => match o with Some x => x | None => c end)) in E.
  cbv beta iota in E. subst c.
  apply clean_as_raw_fixed; [exact Hb | apply py_max_0_normal |
                             apply reduction_normal].
Qed.

Lemma priority_cost_multiplier_pos (priority : string) :
  0 < priority_cost_multiplier priority.
Proof.
  unfold priority_cost_multiplier, dict_get. cbn [dict_lookup].
  repeat match goal with
  | |- context [String.eqb ?k priority] => destruct (String.eqb k priority)
  end; lra.
Qed.

Ltac short_strings_literal :=
  split; [cbn; lia | repeat constructor; cbn; lia].

Ltac fallback_strategy_ok :=
  split;
  [ unfold within_bounds;
    cbv [MitigationStrategy.strategy_name MitigationStrategy.action_steps
         MitigationStrategy.timeline_days MitigationStrategy.estimated_cost
         MitigationStrategy.risk_reduction MitigationStrategy.dependencies
         MitigationStrategy.pros MitigationStrategy.cons];
    split; [cbn; lia|];
    split; [short_strings_literal|];
    split; [lia|];
    split; [lra|];
    split; [lra|];
    split; [short_strings_literal|];
    split; short_strings_literal
  | split;
    [ right; cbv [MitigationStrategy.estimated_cost]; lra
    | right; right; cbv [MitigationStrategy.risk_reduction]; lra ] ].

Lemma fallback_strategies_normal (risk : RiskItem.t) :
  Forall (fun s =>
            within_bounds s /\
            (MitigationStrategy.estimated_cost s = 0 \/
             0 < MitigationStrategy.estimated_cost s) /\
            (MitigationStrategy.risk_reduction s = 0 \/
             MitigationStrategy.risk_reduction s = 100 \/
             0 < MitigationStrategy.risk_reduction s < 100))
    (_generate_fallback_mitigations risk).
Proof.
  unfold _generate_fallback_mitigations.
  pose proof (priority_cost_multiplier_pos
                (get_or (RiskItem.priority risk) "MEDIUM")) as Hm.
  set (m := priority_cost_multiplier _) in *. clearbody m.
  destruct (contains "Supplier" _);
    [repeat (constructor; [fallback_strategy_ok|]); constructor|].
  destruct (contains "Production" _);
    [repeat (constructor; [fallback_strategy_ok|]); constructor|].
  destruct (contains "Stock" _ || contains "Inventory" _);
    [repeat (constructor; [fallback_strategy_ok|]); constructor|].
  destruct (contains "Transportation" _);
    repeat (constructor; [fallback_strategy_ok|]); constructor.
Qed.

(** X12: whatever the category and the priority of the risk, every
    fallback strategy keeps the bounds of the validator, with a cost
    above zero, and the fallback list passes the validator unchanged. *)
Theorem fallback_strategies_valid (risk : RiskItem.t) :
  Forall within_bounds (_generate_fallback_mitigations risk) /\
  Forall (fun s => 0 < MitigationStrategy.estimated_cost s)
    (_generate_fallback_mitigations risk) /\
  _validate_strategies (map as_raw (_generate_fallback_mitigations risk)) =
    _generate_fallback_mitigations risk.
Proof.
  pose proof (fallback_strategies_normal risk) as H.
  split; [|split].
  - eapply Forall_impl; [|exact H]. cbn. tauto.
  - pose proof (fallback_costs_scaled risk) as Hc.
    pose proof (priority_cost_multiplier_pos
                  (get_or (RiskItem.priority risk) "MEDIUM")) as Hm.
    assert (Hall : Forall (fun c => 0 < c)
                     (map MitigationStrategy.estimated_cost
                        (_generate_fallback_mitigations risk))).
    { rewrite Hc. apply Forall_forall. intros c Hin.
      apply in_map_iff in Hin. destruct Hin as (base & <- & Hbase).
      assert (0 < base).
      { unfold spec_base_costs in Hbase.
        repeat match type of Hbase with
        | In _ (if ?b then _ else _) => destruct b
        end; cbn in Hbase;
        repeat match type of Hbase with
        | _ \/ _ => destruct Hbase as [<- | Hbase]
        end; try contradiction; lra. }
      nra. }
    apply Forall_forall. intros s Hs. rewrite Forall_forall in Hall.
    apply Hall. now apply in_map.
  - apply validate_fixed. eapply Forall_impl; [|exact H].
    cbn. intros s (Hb & Hc & Hr). now apply clean_as_raw_fixed.
Qed.

(** ** The composite score is monotone *)

Lemma clamp_monotone (v v' lo hi : Q) :
  v <= v' -> clamp v lo hi <= clamp v' lo hi.
Proof. intro H. unfold clamp. minmax; lra. Qed.

Lemma Qdiv_le_compat (a b m m' : Q) :
  0 <= a -> a <= b -> 0 < m' -> m' <= m -> a / m <= b / m'.
Proof.
  intros Ha Hab Hm' Hm.
  apply Qle_shift_div_r; [lra|].
  assert (Hx : 0 <= b / m') by (apply Qle_shift_div_l; lra).
  assert (Hb : b / m' * m' == b) by (field; lra).
  set (x := b / m') in *. clearbody x. nra.
Qed.

(** X13: the composite score never falls when the impact, the probability
    or the urgency rises, and never falls when the mitigation readiness
    drops: lower readiness can only inflate the score. *)
Theorem composite_score_monotone (i p u m i' p' u' m' : Q) :
  i <= i' -> p <= p' -> u <= u' -> m' <= m ->
  exists s s',
    calculate_composite_score i p u m = Ok s /\
    calculate_composite_score i' p' u' m' = Ok s' /\
    s <= s'.
Proof.
  intros Hi Hp Hu Hm.
  do 2 eexists. split; [apply composite_unfold|].
  split; [apply composite_unfold|].
  apply clamp_monotone.
  pose proof (clamp_monotone i i' 0 100 Hi).
  pose proof (clamp_monotone p p' 0 1 Hp).
  pose proof (clamp_monotone u u' 0 100 Hu).
  pose proof (clamp_monotone m' m 0.1 1.0 Hm).
  pose proof (clamp_bounds i 0 100). pose proof (clamp_bounds p 0 1).
  pose proof (clamp_bounds u 0 100). pose proof (clamp_bounds m' 0.1 1.0).
  apply Qdiv_le_compat; unfold raw_score; lra.
Qed.

Lemma composite_score_monotone_witness :
  exists s s',
    calculate_composite_score 60 0.5 55 0.9 = Ok s /\
    calculate_composite_score 60 0.5 55 0.6 = Ok s' /\
    s <= s'.
Proof. apply composite_score_monotone; lra. Defined.

(** ** The shape of a domain score *)

Lemma with_timeline_same (c : domain_call) :
  with_timeline c (call_timeline c) = c.
Proof. destruct c; reflexivity. Qed.

(** After the gate has opened: the rest of a score method on the real
    scorer is the dictionary [detected_fields]. *)
Lemma conj_second_first (A B : Prop) : B -> A -> A /\ B.
Proof. tauto. Qed.

Lemma composite_value_eq (i p u m : Q) :
  calculate_composite_score i p u m = Ok (composite_value i p u m).
Proof. apply composite_unfold. Qed.

Lemma detected_fields_eq (score : Q) (priority : string) (p i u : Q)
    (rest : pydict) :
  Ok (("risk_detected", VBool true) ::
      ("risk_score", VNum (py_round score 2)) ::
      ("priority", VStr priority) ::
      ("probability", VNum (py_round p 2)) ::
      ("impact_severity", VNum (py_round i 2)) ::
      ("urgency", VNum (py_round u 2)) :: rest) =
  Ok (detected_fields score priority p i u rest).
Proof. reflexivity. Qed.

Ltac open_gate :=
  cbn [self_calculate_composite_score new_RiskScorer];
  rewrite composite_value_eq; cbn [bind];
  match goal with
  | |- exists priority rest, _ /\ bind (classify_risk_priority ?s) _ = _ =>
      destruct (classify_risk_priority_total s) as [priority Hpriority];
      exists priority; eexists; apply conj_second_first;
      [ rewrite Hpriority; cbn [bind]; apply detected_fields_eq
      | exact Hpriority ]
  end.

Lemma supplier_shape (f h w r : Q) :
  score_shape
    (fun t => calculate_supplier_risk_score new_RiskScorer f h w t r) True.
Proof.
  unfold score_shape.
  unfold calculate_supplier_risk_score.
  change (dict_get (thresholds new_RiskScorer) "supplier_lead_time_multiplier" 1.2)
    with 1.2.
  rewrite safe_division_ok. cbn [bind].
  set (ratio := if Qeq_bool h 0 then 1.0 else f / h).
  destruct (Qlt_bool 1.2 ratio) eqn:G; cbn [negb]; [|left; reflexivity].
  apply Qlt_bool_iff in G.
  assert (Hf : ~ f == 0).
  { intro Hf. subst ratio. destruct (Qeq_bool h 0); [lra|].
    rewrite Hf in G. unfold Qdiv in G. lra. }
  rewrite (py_div_ok _ _ Hf). cbn [bind].
  right. do 3 eexists. split; [intro t; open_gate|].
  split; [apply clamp_bounds; lra|].
  split; [minmax; lra|].
  intros _. pose proof (clamp_bounds (py_max r 0.1) 0.1 1.0).
  pose proof (clamp_bounds
                ((0.5 + 0.5 * (1 - py_min (w / f) 1)) * (1 + (1 - r))) 0 1).
  minmax; lra.
Qed.

Lemma production_shape (u d h : Q) :
  score_shape
    (fun t => calculate_production_risk_score new_RiskScorer u d h t) True.
Proof.
  unfold score_shape.
  unfold calculate_production_risk_score.
  change (dict_get (thresholds new_RiskScorer) "capacity_utilization_threshold" 0.95)
    with 0.95.
  change (dict_get (thresholds new_RiskScorer) "downtime_increase_threshold" 0.2)
    with 0.2.
  rewrite safe_division_ok. cbn [bind].
  assert (Hden : ~ 1 - 0.95 == 0) by lra.
  rewrite !(py_div_ok _ _ Hden).
  set (increase := if Qeq_bool h 0 then 0 else (d - h) / h).
  assert (Hex : 0.95 < u -> 0 <= 0.25 * (u - 0.95) / (1 - 0.95))
    by (intro; apply Qle_shift_div_l; lra).
  set (excess := 0.25 * (u - 0.95) / (1 - 0.95)) in *. clearbody excess.
  destruct (Qlt_bool 0.95 u) eqn:G1; destruct (Qlt_bool 0.2 increase) eqn:G2;
    cbn [negb orb bind]; try (left; reflexivity);
    right; (do 3 eexists); (split; [intro t; open_gate|]);
    (split; [apply clamp_bounds; lra|]);
    (split; [apply clamp_bounds; lra|]);
    intros _;
    try apply Qlt_bool_iff in G1; try apply Qlt_bool_iff in G2;
    change (clamp 0.7 0.1 1.0) with 0.7;
    match goal with
    | |- _ <= clamp ?x 0 100 * _ + clamp ?y 0 1 * _ =>
        pose proof (clamp_bounds x 0 100);
        assert (0.5 <= clamp y 0 1); [|lra]
    end;
    unfold clamp; divconst; minmax; lra.
Qed.

Lemma inventory_shape (i s d l : Q) :
  score_shape
    (fun t => calculate_inventory_risk_score new_RiskScorer i s d l t)
    (0 <= s).
Proof.
  unfold score_shape.
  unfold calculate_inventory_risk_score.
  rewrite !safe_division_ok.
  destruct (Qlt_bool i s) eqn:G1; destruct (Qlt_bool l d) eqn:G2;
    cbn [negb orb bind]; try (left; reflexivity);
    right; (do 3 eexists); (split; [intro t; open_gate|]);
    (split; [apply clamp_bounds; lra|]);
    (split; [apply clamp_bounds; lra|]);
    intros Hs;
    try apply Qlt_bool_iff in G1; try apply Qlt_bool_iff in G2;
    change (clamp 0.6 0.1 1.0) with 0.6.
  + (* shortage and high demand *)
    match goal with
    | |- _ <= clamp ?x 0 100 * _ + clamp ?y 0 1 * _ =>
        pose proof (clamp_bounds y 0 1);
        assert (40 <= clamp x 0 100); [|lra]
    end.
    assert (Hsev : 0 <= (if Qeq_bool s 0 then 0 else (s - i) / s)).
    { destruct (Qeq_bool s 0) eqn:E; [lra|].
      apply Qeq_bool_neq in E. apply Qle_shift_div_l; lra. }
    unfold clamp. minmax; lra.
  + (* shortage only *)
    match goal with
    | |- _ <= clamp ?x 0 100 * _ + clamp ?y 0 1 * _ =>
        pose proof (clamp_bounds x 0 100);
        assert (0.3 <= clamp y 0 1); [|lra]
    end.
    assert (Hsev : 0 <= (if Qeq_bool s 0 then 0 else (s - i) / s)).
    { destruct (Qeq_bool s 0) eqn:E; [lra|].
      apply Qeq_bool_neq in E. apply Qle_shift_div_l; lra. }
    unfold clamp. minmax; lra.
  + (* high demand only *)
    match goal with
    | |- _ <= clamp ?x 0 100 * _ + clamp ?y 0 1 * _ =>
        pose proof (clamp_bounds y 0 1);
        assert (40 <= clamp x 0 100); [|lra]
    end.
    unfold clamp. minmax; lra.
Qed.

Lemma demand_shape (y u l : Q) :
  score_shape
    (fun t => calculate_demand_volatility_score new_RiskScorer y u l t) True.
Proof.
  unfold score_shape.
  unfold calculate_demand_volatility_score.
  change (dict_get (thresholds new_RiskScorer) "demand_volatility_threshold" 0.3)
    with 0.3.
  rewrite safe_division_ok. cbn [bind].
  set (volatility := if Qeq_bool y 0 then 0 else (u - l) / y).
  destruct (Qlt_bool 0.3 volatility) eqn:G; cbn [negb]; [|left; reflexivity].
  apply Qlt_bool_iff in G.
  rewrite py_div_ok by lra. cbn [bind].
  right. do 3 eexists. split; [intro t; open_gate|].
  split; [minmax; divconst; lra|].
  split; [minmax; lra|].
  intros _. change (clamp 0.8 0.1 1.0) with 0.8. minmax; divconst; lra.
Qed.

Lemma transportation_shape (f b r : Q) :
  score_shape
    (fun t => calculate_transportation_risk_score new_RiskScorer f b t r) True.
Proof.
  unfold score_shape.
  unfold calculate_transportation_risk_score.
  change (dict_get (thresholds new_RiskScorer) "transit_time_multiplier" 1.3)
    with 1.3.
  rewrite safe_division_ok. cbn [bind].
  set (ratio := if Qeq_bool b 0 then 1.0 else f / b).
  destruct (Qlt_bool 1.3 ratio) eqn:G; cbn [negb]; [|left; reflexivity].
  apply Qlt_bool_iff in G.
  right. do 3 eexists. split; [intro t; open_gate|].
  split; [apply clamp_bounds; lra|].
  split; [minmax; lra|].
  intros _. pose proof (clamp_bounds r 0.1 1.0).
  pose proof (clamp_bounds (0.5 + 0.5 * (1 - r)) 0 1).
  minmax; lra.
Qed.

Lemma external_shape (ft : string) (f h : Q) :
  score_shape
    (fun t => calculate_external_factor_risk_score new_RiskScorer ft f h t)
    True.
Proof.
  unfold score_shape.
  unfold calculate_external_factor_risk_score.
  destruct (external_factor_branches new_RiskScorer ft f h)
    as [locals|e] eqn:B;
    [|destruct (external_factor_branches_total new_RiskScorer ft f h)
        as [x Hx]; congruence].
  cbn [bind].
  destruct (fl_risk_detected locals) eqn:D; cbn [negb]; [|left; reflexivity].
  right. do 3 eexists. split; [intro t; open_gate|].
  split; [apply clamp_bounds; lra|].
  split; [apply clamp_bounds; lra|].
  intros _. change (clamp 0.5 0.1 1.0) with 0.5.
  assert (Himpact : 20 <= fl_impact_severity locals /\
                    0 <= fl_probability locals).
  { revert B. unfold external_factor_branches.
    change (dict_get (thresholds new_RiskScorer) "weather_severity_threshold" 7)
      with 7.
    change (dict_get (thresholds new_RiskScorer) "tariff_increase_threshold" 0.1)
      with 0.1.
    change (dict_get (thresholds new_RiskScorer) "port_congestion_threshold" 30)
      with 30.
    rewrite !safe_division_ok. cbn [bind].
    repeat match goal with
    | |- context [if String.eqb ft ?k then _ else _] =>
        destruct (String.eqb ft k)
    | |- context [if Qlt_bool ?a ?b then _ else _] =>
        let E := fresh "E" in
        destruct (Qlt_bool a b) eqn:E; [apply Qlt_bool_iff in E|]
    end;
    intro B; injection B as <-; cbn [fl_risk_detected] in D;
    try discriminate D;
    cbn [fl_impact_severity fl_probability];
    split; minmax; divconst; lra. }
  pose proof (clamp_bounds (fl_probability locals) 0 1).
  unfold clamp at 1. minmax; lra.
Qed.

Lemma domain_score_shape (c : domain_call) :
  score_shape (fun t => domain_score new_RiskScorer (with_timeline c t))
    (valid_stock c).
Proof.
  destruct c; cbn [domain_score with_timeline valid_stock].
  - apply supplier_shape.
  - apply production_shape.
  - apply inventory_shape.
  - apply demand_shape.
  - apply transportation_shape.
  - apply external_shape.
Qed.
(** ** Rounding is monotone and fixes integers *)

Lemma round_half_even_cases (x : Q) :
  (round_half_even x = Qfloor x /\ x - inject_Z (Qfloor x) <= 1 # 2) \/
  (round_half_even x = (Qfloor x + 1)%Z /\ 1 # 2 <= x - inject_Z (Qfloor x)).
Proof.
  unfold round_half_even.
  destruct (Qlt_bool (x - inject_Z (Qfloor x)) (1 # 2)) eqn:E1.
  - apply Qlt_bool_iff in E1. left. split; [reflexivity | lra].
  - apply Qlt_bool_false_iff in E1.
    destruct (Qlt_bool (1 # 2) (x - inject_Z (Qfloor x))) eqn:E2.
    + right. split; [reflexivity | exact E1].
    + apply Qlt_bool_false_iff in E2.
      destruct (Z.even (Qfloor x)); [left | right]; split;
        try reflexivity; assumption.
Qed.

Lemma round_half_even_monotone (x y : Q) :
  x <= y -> (round_half_even x <= round_half_even y)%Z.
Proof.
  intro Hxy.
  pose proof (Qfloor_resp_le _ _ Hxy) as Hfl.
  destruct (Z.eq_dec (Qfloor x) (Qfloor y)) as [Heq | Hne].
  - unfold round_half_even. rewrite <- Heq.
    set (f := Qfloor x) in *.
    destruct (Qlt_bool (x - inject_Z f) (1 # 2)) eqn:X1;
      destruct (Qlt_bool (y - inject_Z f) (1 # 2)) eqn:Y1;
      destruct (Qlt_bool (1 # 2) (x - inject_Z f)) eqn:X2;
      destruct (Qlt_bool (1 # 2) (y - inject_Z f)) eqn:Y2;
      destruct (Z.even f); try lia;
      repeat match goal with
      | H : Qlt_bool _ _ = true |- _ => apply Qlt_bool_iff in H
      | H : Qlt_bool _ _ = false |- _ => apply Qlt_bool_false_iff in H
      end; lra.
  - destruct (round_half_even_cases x) as [[-> _] | [-> _]];
      destruct (round_half_even_cases y) as [[-> _] | [-> _]]; lia.
Qed.

Lemma scale_positive (ndigits : nat) : 0 < inject_Z (10 ^ Z.of_nat ndigits).
Proof.
  change 0 with (inject_Z 0). rewrite <- Zlt_Qlt.
  apply Z.pow_pos_nonneg; lia.
Qed.

Lemma py_round_monotone (x y : Q) (ndigits : nat) :
  x <= y -> py_round x ndigits <= py_round y ndigits.
Proof.
  intro Hxy. unfold py_round.
  pose proof (scale_positive ndigits) as Hk.
  set (k := inject_Z (10 ^ Z.of_nat ndigits)) in *.
  apply Qle_shift_div_l; [exact Hk|].
  assert (E : inject_Z (round_half_even (x * k)) / k * k ==
              inject_Z (round_half_even (x * k))) by (field; lra).
  rewrite E. rewrite <- Zle_Qle. apply round_half_even_monotone.
  apply Qmult_le_compat_r; lra.
Qed.

Lemma round_half_even_integer (z : Z) : round_half_even (inject_Z z) = z.
Proof.
  unfold round_half_even. rewrite Qfloor_Z.
  destruct (Qlt_bool (inject_Z z - inject_Z z) (1 # 2)) eqn:E; [reflexivity|].
  apply Qlt_bool_false_iff in E. lra.
Qed.

Lemma py_round_integer (z : Z) (ndigits : nat) :
  py_round (inject_Z z) ndigits == inject_Z z.
Proof.
  unfold py_round.
  pose proof (scale_positive ndigits) as Hk.
  rewrite <- inject_Z_mult, round_half_even_integer, inject_Z_mult.
  field. lra.
Qed.

#[global] Instance round_half_even_proper : Proper (Qeq ==> eq) round_half_even.
Proof.
  intros x y E. unfold round_half_even.
  rewrite (Qfloor_comp _ _ E).
  assert (Ed : x - inject_Z (Qfloor y) == y - inject_Z (Qfloor y))
    by now rewrite E.
  rewrite (Qlt_bool_proper _ _ Ed _ _ (Qeq_refl (1 # 2))).
  rewrite (Qlt_bool_proper _ _ (Qeq_refl (1 # 2)) _ _ Ed).
  reflexivity.
Qed.

#[global] Instance py_round_proper : Proper (Qeq ==> eq ==> Qeq) py_round.
Proof.
  intros x y E n n' <-. unfold py_round. now rewrite E.
Qed.

(** ** Consequences of the shape of a domain score *)

Lemma urgency_of_integer (t : Z) :
  urgency_of t == inject_Z (Z.max (100 - t) 0).
Proof.
  unfold urgency_of.
  destruct (py_max_cases (inject_Z (100 - t)) 0) as [[H ->] | [H ->]].
  - change 0 with (inject_Z 0) in H. rewrite <- Zlt_Qlt in H.
    rewrite Z.max_r by lia. reflexivity.
  - change 0 with (inject_Z 0) in H. rewrite <- Zle_Qle in H.
    rewrite Z.max_l by lia. reflexivity.
Qed.

Lemma composite_value_bounds (i p u m : Q) :
  0 <= composite_value i p u m <= 100.
Proof. apply clamp_bounds. lra. Qed.

Lemma composite_value_floor (i p u m : Q) :
  0 <= p <= 1 -> 0 <= i <= 100 ->
  15 * clamp m 0.1 1.0 <= i * 0.4 + p * 30 ->
  15 <= composite_value i p u m.
Proof.
  intros Hp Hi Hfloor. unfold composite_value.
  pose proof (readiness_clamped m) as Hm.
  pose proof (clamp_in_range i 0 100 Hi) as Ei.
  pose proof (clamp_in_range p 0 1 Hp) as Ep.
  pose proof (clamp_bounds u 0 100) as Hu.
  assert (Hdiv : 15 <= raw_score (clamp i 0 100) (clamp p 0 1) (clamp u 0 100)
                       / clamp m 0.1 1.0).
  { apply Qle_shift_div_l; [lra|]. unfold raw_score. rewrite Ei, Ep. lra. }
  set (x := raw_score _ _ _ / _) in *. clearbody x.
  unfold clamp. minmax; lra.
Qed.

Lemma composite_value_urgency_monotone (i p u u' m : Q) :
  u <= u' -> composite_value i p u m <= composite_value i p u' m.
Proof.
  intro Hu. unfold composite_value. apply clamp_monotone.
  pose proof (clamp_monotone u u' 0 100 Hu).
  pose proof (clamp_bounds i 0 100). pose proof (clamp_bounds p 0 1).
  pose proof (clamp_bounds u 0 100). pose proof (readiness_clamped m).
  apply Qdiv_le_compat; unfold raw_score; lra.
Qed.

Lemma urgency_of_antitone (t1 t2 : Z) :
  (t1 <= t2)%Z -> urgency_of t2 <= urgency_of t1.
Proof.
  intro H. rewrite !urgency_of_integer, <- Zle_Qle. lia.
Qed.

Lemma shape_at_call (c : domain_call) (r : pydict) :
  domain_score new_RiskScorer c = Ok r ->
  dict_lookup r "risk_detected" = Some (VBool true) ->
  exists i p m priority rest,
    classify_risk_priority
      (composite_value i p (urgency_of (call_timeline c)) m) = Ok priority /\
    r = detected_fields
          (composite_value i p (urgency_of (call_timeline c)) m)
          priority p i (urgency_of (call_timeline c)) rest /\
    0 <= p <= 1 /\ 0 <= i <= 100 /\
    (valid_stock c -> 15 * clamp m 0.1 1.0 <= i * 0.4 + p * 30).
Proof.
  intros Hrun Hflag.
  destruct (domain_score_shape c) as [Hclosed | (i & p & m & Hopen & Hp & Hi & Hv)].
  - specialize (Hclosed (call_timeline c)). cbv beta in Hclosed.
    rewrite with_timeline_same, Hrun in Hclosed.
    injection Hclosed as ->. discriminate Hflag.
  - destruct (Hopen (call_timeline c)) as (priority & rest & Hprio & Hres).
    cbv beta in Hres. rewrite with_timeline_same, Hrun in Hres.
    injection Hres as ->.
    exists i, p, m, priority, rest. repeat split; try assumption; apply Hp || apply Hi.
Qed.

(** X14: a detected risk never scores below 15: whenever a domain score
    method reports [risk_detected] true (the safety stock of an inventory
    call not being negative) its [risk_score] lies in [15,100].  With the
    closed-gate score of exactly 0, the score alone tells a risk from a
    non-risk. *)
Theorem detected_score_at_least_15 (c : domain_call) (r : pydict) :
  valid_stock c ->
  domain_score new_RiskScorer c = Ok r ->
  dict_lookup r "risk_detected" = Some (VBool true) ->
  exists s, dict_lookup r "risk_score" = Some (VNum s) /\ 15 <= s <= 100.
Proof.
  intros Hvalid Hrun Hflag.
  destruct (shape_at_call c r Hrun Hflag)
    as (i & p & m & priority & rest & _ & -> & Hp & Hi & Hfloor).
  eexists. split; [reflexivity|].
  apply (py_round_bounds _ 15 100 2). split.
  - apply composite_value_floor; auto.
  - apply composite_value_bounds.
Qed.

Lemma detected_score_at_least_15_witness :
  exists r s,
    domain_score new_RiskScorer (InventoryCall 50 100 0 40 45) = Ok r /\
    dict_lookup r "risk_score" = Some (VNum s) /\ 15 <= s <= 100.
Proof.
  destruct (inventory_in_range 50 100 0 40 45) as (r & Hr & _).
  assert (Hflag : dict_lookup r "risk_detected" = Some (VBool true)).
  { pose proof Hr as Hr'. vm_compute in Hr'. injection Hr' as <-. reflexivity. }
  destruct (detected_score_at_least_15 (InventoryCall 50 100 0 40 45) r)
    as (s & Hs & Hb); [cbn; lra | exact Hr | exact Hflag |].
  exists r, s. auto.
Defined.

(** Without the hypothesis on the safety stock the floor fails: with a
    negative safety stock the shortage gate opens and the score is 0. *)
Example negative_safety_stock_scores_zero :
  exists r s,
    calculate_inventory_risk_score new_RiskScorer (-200) (-100) 0 0 100 = Ok r /\
    dict_lookup r "risk_detected" = Some (VBool true) /\
    dict_lookup r "risk_score" = Some (VNum s) /\ s == 0.
Proof.
  do 2 eexists. split; [vm_compute; reflexivity|].
  split; [reflexivity|]. split; reflexivity.
Qed.

(** X15: the [urgency] a detected risk reports is [max(100 - timeline_days, 0)]:
    it lies in [0,100] for a timeline that is not negative, it is 0 from
    100 days on, and for a negative timeline it exceeds 100. *)
Theorem detected_urgency (c : domain_call) (r : pydict) :
  domain_score new_RiskScorer c = Ok r ->
  dict_lookup r "risk_detected" = Some (VBool true) ->
  exists u,
    dict_lookup r "urgency" = Some (VNum u) /\
    u == inject_Z (Z.max (100 - call_timeline c) 0) /\
    ((0 <= call_timeline c)%Z -> 0 <= u <= 100) /\
    ((100 <= call_timeline c)%Z -> u == 0) /\
    ((call_timeline c < 0)%Z -> 100 < u).
Proof.
  intros Hrun Hflag.
  destruct (shape_at_call c r Hrun Hflag)
    as (i & p & m & priority & rest & _ & -> & _).
  eexists. split; [reflexivity|].
  assert (E : py_round (urgency_of (call_timeline c)) 2 ==
              inject_Z (Z.max (100 - call_timeline c) 0)).
  { rewrite (py_round_proper _ _ (urgency_of_integer (call_timeline c)) 2%nat 2%nat eq_refl).
    apply py_round_integer. }
  split; [exact E|]. rewrite E.
  change 0 with (inject_Z 0). change 100 with (inject_Z 100).
  rewrite <- !Zle_Qle, <- Zlt_Qlt.
  repeat split; try lia.
  intro H. rewrite Z.max_r by lia. reflexivity.
Qed.

Lemma detected_urgency_witness :
  exists r u,
    domain_score new_RiskScorer (SupplierCall 13 10 1 45 0.9) = Ok r /\
    dict_lookup r "urgency" = Some (VNum u) /\ 0 <= u <= 100.
Proof.
  destruct (supplier_in_range 13 10 1 45 0.9) as (r & Hr & _).
  assert (Hflag : dict_lookup r "risk_detected" = Some (VBool true)).
  { pose proof Hr as Hr'. vm_compute in Hr'. injection Hr' as <-. reflexivity. }
  destruct (detected_urgency (SupplierCall 13 10 1 45 0.9) r Hr Hflag)
    as (u & Hu & _ & Hb & _).
  exists r, u. split; [exact Hr|]. split; [exact Hu|]. apply Hb. cbn. lia.
Defined.

(** X16: the timeline acts on the score alone, and only through the
    urgency: with every other argument fixed, a shorter timeline changes
    neither the detection nor the reported probability and impact, and it
    never lowers the [risk_score]. *)
Theorem shorter_timeline_never_lowers_score (c : domain_call) (t1 t2 : Z) :
  (t1 <= t2)%Z ->
  exists r1 r2 s1 s2,
    domain_score new_RiskScorer (with_timeline c t1) = Ok r1 /\
    domain_score new_RiskScorer (with_timeline c t2) = Ok r2 /\
    dict_lookup r1 "risk_detected" = dict_lookup r2 "risk_detected" /\
    dict_lookup r1 "probability" = dict_lookup r2 "probability" /\
    dict_lookup r1 "impact_severity" = dict_lookup r2 "impact_severity" /\
    dict_lookup r1 "risk_score" = Some (VNum s1) /\
    dict_lookup r2 "risk_score" = Some (VNum s2) /\
    s2 <= s1.
Proof.
  intro Ht.
  destruct (domain_score_shape c) as [Hclosed | (i & p & m & Hopen & _)].
  - exists no_risk_result, no_risk_result, 0, 0.
    split; [apply Hclosed|]. split; [apply Hclosed|].
    repeat split; try reflexivity; lra.
  - destruct (Hopen t1) as (p1 & rest1 & _ & H1).
    destruct (Hopen t2) as (p2 & rest2 & _ & H2).
    do 4 eexists. split; [exact H1|]. split; [exact H2|].
    repeat split; try reflexivity.
    apply py_round_monotone, composite_value_urgency_monotone,
      urgency_of_antitone, Ht.
Qed.

Lemma shorter_timeline_never_lowers_score_witness :
  exists r1 r2 s1 s2,
    domain_score new_RiskScorer (SupplierCall 13 10 1 30 0.9) = Ok r1 /\
    domain_score new_RiskScorer (SupplierCall 13 10 1 60 0.9) = Ok r2 /\
    dict_lookup r1 "risk_detected" = dict_lookup r2 "risk_detected" /\
    dict_lookup r1 "probability" = dict_lookup r2 "probability" /\
    dict_lookup r1 "impact_severity" = dict_lookup r2 "impact_severity" /\
    dict_lookup r1 "risk_score" = Some (VNum s1) /\
    dict_lookup r2 "risk_score" = Some (VNum s2) /\
    s2 <= s1.
Proof.
  apply (shorter_timeline_never_lowers_score (SupplierCall 13 10 1 45 0.9) 30 60).
  lia.
Defined.

Lemma rank_of_label (s : Q) :
  priority_rank (if Qle_bool 90 s then "CRITICAL"
                 else if Qle_bool 70 s then "HIGH"
                 else if Qle_bool 50 s then "MEDIUM" else "LOW") =
  (if Qle_bool 90 s then 3 else if Qle_bool 70 s then 2
   else if Qle_bool 50 s then 1 else 0)%nat.
Proof.
  destruct (Qle_bool 90 s), (Qle_bool 70 s), (Qle_bool 50 s); reflexivity.
Qed.

(** X17: the priority of a detected risk is classified from the score
    before rounding, while [risk_score] carries the score rounded to two
    places.  The label of the reported score is therefore never below the
    reported priority and at most one level above it. *)
Theorem priority_against_reported_score (c : domain_call) (r : pydict) :
  domain_score new_RiskScorer c = Ok r ->
  dict_lookup r "risk_detected" = Some (VBool true) ->
  exists s p p',
    dict_lookup r "risk_score" = Some (VNum s) /\
    dict_lookup r "priority" = Some (VStr p) /\
    classify_risk_priority s = Ok p' /\
    (priority_rank p <= priority_rank p' <= priority_rank p + 1)%nat.
Proof.
  intros Hrun Hflag.
  destruct (shape_at_call c r Hrun Hflag)
    as (i & p & m & priority & rest & Hprio & -> & _).
  set (x := composite_value i p (urgency_of (call_timeline c)) m) in *.
  pose proof (composite_value_bounds i p (urgency_of (call_timeline c)) m) as Hx.
  fold x in Hx.
  rewrite classify_risk_priority_unfold in Hprio.
  apply (f_equal (fun o => match o with Ok a => a | Raise _ => priority end))
    in Hprio.
  cbv beta iota in Hprio. subst priority.
  do 3 eexists. split; [reflexivity|]. split; [reflexivity|].
  split; [apply classify_risk_priority_unfold|].
  rewrite !rank_of_label.
  assert (Hlow : forall b : Z, inject_Z b <= x -> (b <= 100)%Z ->
                               inject_Z b <= py_round x 2).
  { intros b Hb Hb100. apply (py_round_bounds x b 100 2). split; [exact Hb|apply Hx]. }
  assert (Hhigh : forall b : Z, x <= inject_Z b -> (0 <= b)%Z ->
                                py_round x 2 <= inject_Z b).
  { intros b Hb Hb0. apply (py_round_bounds x 0 b 2). split; [apply Hx|exact Hb]. }
  pose proof (Hlow 90%Z) as L90. pose proof (Hlow 70%Z) as L70.
  pose proof (Hlow 50%Z) as L50.
  pose proof (Hhigh 70%Z) as H70. pose proof (Hhigh 50%Z) as H50.
  change (inject_Z 90) with 90 in *. change (inject_Z 70) with 70 in *.
  change (inject_Z 50) with 50 in *.
  destruct (Qle_bool 90 x) eqn:A90; destruct (Qle_bool 70 x) eqn:A70;
    destruct (Qle_bool 50 x) eqn:A50;
    repeat match goal with
    | H : Qle_bool _ x = true |- _ => apply Qle_bool_iff in H
    | H : Qle_bool _ x = false |- _ => apply Qle_bool_false_iff in H
    end;
    try (exfalso; lra);
    try (specialize (L90 ltac:(lra) ltac:(lia)));
    try (specialize (L70 ltac:(lra) ltac:(lia)));
    try (specialize (L50 ltac:(lra) ltac:(lia)));
    try (specialize (H70 ltac:(lra) ltac:(lia)));
    try (specialize (H50 ltac:(lra) ltac:(lia)));
    destruct (Qle_bool 90 (py_round x 2)) eqn:B90;
    destruct (Qle_bool 70 (py_round x 2)) eqn:B70;
    destruct (Qle_bool 50 (py_round x 2)) eqn:B50;
    try lia;
    repeat match goal with
    | H : Qle_bool _ _ = true |- _ => apply Qle_bool_iff in H
    | H : Qle_bool _ _ = false |- _ => apply Qle_bool_false_iff in H
    end;
    exfalso; lra.
Qed.

Lemma priority_against_reported_score_witness :
  exists r s p p',
    domain_score new_RiskScorer
      (ExternalCall "weather_severity_index" (196996 # 28000) 5 45) = Ok r /\
    dict_lookup r "risk_score" = Some (VNum s) /\
    dict_lookup r "priority" = Some (VStr p) /\
    classify_risk_priority s = Ok p' /\
    (priority_rank p <= priority_rank p' <= priority_rank p + 1)%nat.
Proof.
  destruct (external_in_range "weather_severity_index" (196996 # 28000) 5 45)
    as (r & Hr & _).
  assert (Hflag : dict_lookup r "risk_detected" = Some (VBool true)).
  { pose proof Hr as Hr'. vm_compute in Hr'. injection Hr' as <-. reflexivity. }
  destruct (priority_against_reported_score
              (ExternalCall "weather_severity_index" (196996 # 28000) 5 45)
              r Hr Hflag) as (s & p & p' & H).
  exists r, s, p, p'. split; [exact Hr | exact H].
Defined.

(** The two labels do part: a weather index of about 7.0356 at 45 days
    scores 89.996, which is HIGH, and is reported as 90.0, which is
    CRITICAL. *)
Example priority_below_reported_score :
  exists r s,
    calculate_external_factor_risk_score new_RiskScorer
      "weather_severity_index" (196996 # 28000) 5 45 = Ok r /\
    dict_lookup r "priority" = Some (VStr "HIGH") /\
    dict_lookup r "risk_score" = Some (VNum s) /\ s == 90 /\
    classify_risk_priority s = Ok "CRITICAL".
Proof.
  do 2 eexists. split; [vm_compute; reflexivity|].
  split; [reflexivity|]. split; [reflexivity|].
  split; reflexivity.
Qed.

(** X18: a zero baseline never opens a ratio gate and never raises: with a
    historical lead time, a baseline transit time or a demand forecast of
    zero, and for tariffs and fuel prices with a historical value of zero,
    the method returns the closed-gate dictionary whatever the forecast. *)
Theorem zero_baseline_is_no_risk (c : domain_call) :
  zero_baseline c ->
  domain_score new_RiskScorer c = Ok no_risk_result.
Proof.
  destruct c as [f h w t r | u d h t | i s d l t | y u l t | f b t r
                | ft f h t]; cbn [zero_baseline domain_score]; intro Hz.
  - unfold calculate_supplier_risk_score.
    rewrite safe_division_ok, (Qeq_eq_bool _ _ Hz). reflexivity.
  - contradiction.
  - contradiction.
  - unfold calculate_demand_volatility_score.
    rewrite safe_division_ok, (Qeq_eq_bool _ _ Hz). reflexivity.
  - unfold calculate_transportation_risk_score.
    rewrite safe_division_ok, (Qeq_eq_bool _ _ Hz). reflexivity.
  - destruct Hz as [[-> | ->] Hz];
      unfold calculate_external_factor_risk_score, external_factor_branches;
      cbn [String.eqb Ascii.eqb Bool.eqb andb];
      rewrite safe_division_ok, (Qeq_eq_bool _ _ Hz); reflexivity.
Qed.

Lemma zero_baseline_is_no_risk_witness :
  domain_score new_RiskScorer (SupplierCall 13 0 1 45 0.9) = Ok no_risk_result.
Proof. apply zero_baseline_is_no_risk. cbn. reflexivity. Defined.

(** ** The retry loop of the external call *)

Lemma call_attempts_raises (script : nat -> string -> api_outcome)
    (n : nat) (prompt : string) (k : nat) :
  forall (a : nat) (rest : list nat) (st : service_state),
    (forall j, (j < k)%nat -> script (api_calls st + j)%nat prompt = ApiRaises) ->
    call_attempts script n prompt (seq a k ++ rest) st =
    call_attempts script n prompt rest
      {| api_calls := api_calls st + k;
         slept := slept st ++
                  map (fun x => (2 ^ Z.of_nat x)%Z)
                    (filter (fun x => (Z.of_nat x <? Z.of_nat n - 1)%Z)
                       (seq a k)) |}.
Proof.
  induction k as [|k IH]; intros a rest st Hraise.
  - cbn [seq app filter map]. rewrite app_nil_r, Nat.add_0_r.
    destruct st; reflexivity.
  - cbn [seq app call_attempts].
    pose proof (Hraise 0%nat ltac:(lia)) as H0. rewrite Nat.add_0_r in H0.
    rewrite H0. rewrite IH.
    + cbn [filter]. destruct (Z.of_nat a <? Z.of_nat n - 1)%Z;
        cbn [api_calls slept map]; rewrite <- ?app_assoc; cbn [app];
        do 2 f_equal; lia.
    + intros j Hj.
      destruct (Z.of_nat a <? Z.of_nat n - 1)%Z; cbn [api_calls];
        rewrite <- (Hraise (S j) ltac:(lia)); f_equal; lia.
Qed.

Lemma filter_before_last (n k : nat) :
  (k <= n - 1)%nat ->
  filter (fun x => (Z.of_nat x <? Z.of_nat n - 1)%Z) (seq 0 k) = seq 0 k.
Proof.
  intro Hk. apply forallb_filter_id. apply forallb_forall.
  intros x Hx. apply in_seq in Hx. apply Z.ltb_lt. lia.
Qed.

Lemma filter_all_attempts (n : nat) :
  filter (fun x => (Z.of_nat x <? Z.of_nat n - 1)%Z) (seq 0 n) = seq 0 (n - 1).
Proof.
  destruct n as [|n]; [reflexivity|].
  replace (S n - 1)%nat with n by lia.
  rewrite seq_S, filter_app. cbn [filter Nat.add].
  rewrite (filter_before_last (S n) n) by lia.
  destruct (Z.ltb_spec (Z.of_nat n) (Z.of_nat (S n) - 1)); [lia|].
  apply app_nil_r.
Qed.

(** X19: when every attempt raises, the external call is tried exactly
    [max_retries] times and gives [None]; between the attempts the service
    sleeps 1, 2, 4, ... seconds, and it does not sleep after the last
    attempt. *)
Theorem call_groq_api_exhausted (self : MitigationService.t)
    (script : nat -> string -> api_outcome) (prompt : string)
    (st : service_state) :
  MitigationService.client self = Some script ->
  (forall j, (j < MitigationService.max_retries self)%nat ->
             script (api_calls st + j)%nat prompt = ApiRaises) ->
  _call_groq_api self prompt st =
  (None,
   {| api_calls := api_calls st + MitigationService.max_retries self;
      slept := slept st ++
               map (fun attempt => (2 ^ Z.of_nat attempt)%Z)
                 (seq 0 (MitigationService.max_retries self - 1)) |}).
Proof.
  intros Hclient Hraise. unfold _call_groq_api. rewrite Hclient.
  rewrite <- (app_nil_r (seq 0 _)).
  rewrite (call_attempts_raises script _ prompt _ 0 [] st Hraise).
  cbn [call_attempts]. now rewrite filter_all_attempts.
Qed.

Lemma call_groq_api_exhausted_witness :
  _call_groq_api (new_MitigationService (Some (fun _ _ => ApiRaises)))
    "prompt" {| api_calls := 0; slept := [] |} =
  (None, {| api_calls := 3; slept := [1; 2]%Z |}).
Proof.
  apply (call_groq_api_exhausted
           (new_MitigationService (Some (fun _ _ => ApiRaises)))
           (fun _ _ => ApiRaises) "prompt" {| api_calls := 0; slept := [] |}).
  - reflexivity.
  - reflexivity.
Defined.

(** X20: the external call stops at the first attempt that returns: after
    [k] failed attempts, [k] below [max_retries], it has made [k + 1]
    calls, slept 1, 2, ..., 2^(k-1) seconds, and it returns the content of
    that response. *)
Theorem call_groq_api_first_success (self : MitigationService.t)
    (script : nat -> string -> api_outcome) (prompt : string)
    (st : service_state) (k : nat) (content : option string) :
  MitigationService.client self = Some script ->
  (k < MitigationService.max_retries self)%nat ->
  (forall j, (j < k)%nat -> script (api_calls st + j)%nat prompt = ApiRaises) ->
  script (api_calls st + k)%nat prompt = ApiContent content ->
  _call_groq_api self prompt st =
  (content,
   {| api_calls := S (api_calls st + k);
      slept := slept st ++
               map (fun attempt => (2 ^ Z.of_nat attempt)%Z) (seq 0 k) |}).
Proof.
  intros Hclient Hk Hraise Hok. unfold _call_groq_api. rewrite Hclient.
  set (n := MitigationService.max_retries self) in *.
  replace n with (k + (n - k))%nat at 2 by lia.
  rewrite seq_app.
  rewrite (call_attempts_raises script n prompt k 0 _ st Hraise).
  rewrite (filter_before_last n k) by lia.
  destruct (n - k)%nat as [|m] eqn:E; [lia|].
  cbn [seq call_attempts api_calls slept]. now rewrite Hok.
Qed.

Lemma call_groq_api_first_success_witness :
  _call_groq_api
    (new_MitigationService
       (Some (fun call _ => if (call <? 2)%nat then ApiRaises
                            else ApiContent (Some "[]"))))
    "prompt" {| api_calls := 0; slept := [] |} =
  (Some "[]", {| api_calls := 3; slept := [1; 2]%Z |}).
Proof.
  apply (call_groq_api_first_success
           (new_MitigationService
              (Some (fun call _ => if (call <? 2)%nat then ApiRaises
                                   else ApiContent (Some "[]"))))
           (fun call _ => if (call <? 2)%nat then ApiRaises
                          else ApiContent (Some "[]"))
           "prompt" {| api_calls := 0; slept := [] |} 2 (Some "[]")).
  - reflexivity.
  - cbv. lia.
  - intros j Hj. cbn [api_calls Nat.add].
    destruct (Nat.ltb_spec j 2); [reflexivity | lia].
  - reflexivity.
Defined.


(** ** generate_mitigations and add_mitigations *)

Section GenerateMitigationsFacts.
Variable _build_prompt : RiskItem.t -> string.
Variable _parse_llm_response : string -> list MitigationStrategy.t.







End GenerateMitigationsFacts.


(** ** calculate_percentage_change *)



(** ** The stages after the mitigation stage *)

Lemma erase_recommendation (risk : RiskItem.t) :
  risk_bucket (set_mitigations risk []) = risk_bucket risk /\
  spec_recommendation (set_mitigations risk []) = spec_recommendation risk.
Proof. split; reflexivity. Qed.





Section AfterMitigation.
Variable _build_prompt : RiskItem.t -> string.
Variable _parse_llm_response : string -> list MitigationStrategy.t.


End AfterMitigation.
